(** * AIRE deal scoring and projection engine (src/app.py)

    A shallow embedding of the scoring core of [app.py]: [monthly_payment],
    [compute_numbers], [ai_flags], [ai_penalty], [available_metrics],
    [normalized_score], [kill_switch], [grade], [project_cashflows] and
    [sensitivity_matrix], followed by the properties of the specification.

    Numbers.  Python [float]s are embedded as exact rationals [Q] and Python
    [int]s as [Z]; every statement below is a statement about exact
    arithmetic, and equality of numbers is [Qeq] ([==]).  Rounding of
    binary64 and [OverflowError] are outside the model.

    Exceptions.  A Python expression that can raise is embedded in the
    [result] monad.  Three exceptions are in reach of the scoring path:
    [ZeroDivisionError] (a division whose divisor is a run-time value, or a
    zero base raised to a negative power), [KeyError] (a subscript [d[k]]
    on a dict) and [IndexError] (a subscript on a list).  Divisions by a
    non-zero literal are written with the total [/]. *)

From Stdlib Require Import QArith Qabs Qminmax Qround Qpower ZArith List String Ascii Bool.
From Stdlib Require Import DecimalString Permutation Lia Lqa.
Import ListNotations.
Open Scope string_scope.
Open Scope list_scope.
Open Scope Q_scope.

(** ** Python primitives *)

Inductive exn : Type :=
| ZeroDivisionError
| KeyError
| IndexError.

Inductive result (A : Type) : Type :=
| Ok (a : A)
| Raise (e : exn).
Arguments Ok {A} a.
Arguments Raise {A} e.

Definition bind {A B : Type} (r : result A) (k : A -> result B) : result B :=
  match r with
  | Ok a => k a
  | Raise e => Raise e
  end.

Notation "x <- e ;; k" := (bind e (fun x => k))
  (at level 61, e at next level, right associativity).
Notation "' pat <- e ;; k" := (bind e (fun x => match x with pat => k end))
  (at level 61, pat pattern, e at next level, right associativity).

(** [returns r P]: the call terminates normally and its value satisfies [P]. *)
Definition returns {A : Type} (r : result A) (P : A -> Prop) : Prop :=
  match r with
  | Ok a => P a
  | Raise _ => False
  end.


(** [a / b] on floats. *)
Definition pydiv (a b : Q) : result Q :=
  if Qeq_bool b 0 then Raise ZeroDivisionError else Ok (a / b).

(** [a ** n] for a float base and an int exponent. *)
Definition pypow (a : Q) (n : Z) : result Q :=
  if Qeq_bool a 0 && (n <? 0)%Z then Raise ZeroDivisionError else Ok (a ^ n).

(** [x or d] for a float [x]: zero is falsy. *)
Definition py_or (x d : Q) : Q := if Qeq_bool x 0 then d else x.

(** [a < b] on floats. *)
Definition Qlt_bool (a b : Q) : bool := negb (Qle_bool b a).

(** [x in xs] for a list of strings. *)
Definition py_in (x : string) (xs : list string) : bool :=
  existsb (String.eqb x) xs.

(** [sub in s] for strings: substring search. *)
Fixpoint contains (sub s : string) : bool :=
  prefix sub s ||
  match s with
  | EmptyString => false
  | String _ rest => contains sub rest
  end.

(** [str.upper] on ASCII text. *)
Definition upper_ascii (c : ascii) : ascii :=
  let n := nat_of_ascii c in
  if (97 <=? n)%nat && (n <=? 122)%nat then ascii_of_nat (n - 32) else c.

Fixpoint upper (s : string) : string :=
  match s with
  | EmptyString => EmptyString
  | String c rest => String (upper_ascii c) (upper rest)
  end.

(** *** Dictionaries

    A Python [dict] keeps its keys in insertion order; it is embedded as an
    association list in that order.  [dict_set] is [d[k] = v]: it overwrites
    in place when [k] is already a key and appends otherwise. *)

Definition dict (V : Type) : Type := list (string * V).

Fixpoint dict_get {V : Type} (d : dict V) (k : string) : option V :=
  match d with
  | [] => None
  | (k', v) :: rest => if String.eqb k' k then Some v else dict_get rest k
  end.

Fixpoint dict_set {V : Type} (d : dict V) (k : string) (v : V) : dict V :=
  match d with
  | [] => [(k, v)]
  | (k', v') :: rest =>
      if String.eqb k' k then (k', v) :: rest else (k', v') :: dict_set rest k v
  end.

Definition dict_keys {V : Type} (d : dict V) : list string := map fst d.
Definition dict_values {V : Type} (d : dict V) : list V := map snd d.

(** [d.get(k, default)] *)
Definition dict_get_default {V : Type} (d : dict V) (k : string) (default : V) : V :=
  match dict_get d k with
  | Some v => v
  | None => default
  end.

(** [d[k]] *)
Definition dict_index {V : Type} (d : dict V) (k : string) : result V :=
  match dict_get d k with
  | Some v => Ok v
  | None => Raise KeyError
  end.

(** [{k: f(k) for k in keys}] *)
Definition dict_comprehension {V : Type} (keys : list string) (f : string -> V) : dict V :=
  fold_left (fun d k => dict_set d k (f k)) keys [].

(** [{k: f(k) for k in keys}] where [f(k)] can raise. *)
Definition dict_comprehension_r {V : Type} (keys : list string) (f : string -> result V)
  : result (dict V) :=
  fold_left (fun acc k => d <- acc ;; v <- f k ;; Ok (dict_set d k v)) keys (Ok []).

(** [(f(k) for k in keys)] where [f(k)] can raise, consumed in order. *)
Fixpoint generate {A B : Type} (f : A -> result B) (xs : list A) : result (list B) :=
  match xs with
  | [] => Ok []
  | x :: rest => v <- f x ;; vs <- generate f rest ;; Ok (v :: vs)
  end.

(** [sum(xs)] *)
Definition py_sum (xs : list Q) : Q := fold_left Qplus xs 0.











(** ** The deal record *)

Record PropertyData : Type := mkPropertyData {
  property_type : string;
  address : string;
  price : option Q;
  replacement_cost : option Q;
  days_on_market : option Z;
  last_sale_price : option Q;
  last_sale_date : option string;
  monthly_rent : option Q;
  monthly_expenses : option Q;
  vacancy_rate : option Q;
  occupancy_pct : option Q;
  noi_annual_override : option Q;
  cap_rate_override_pct : option Q;
  down_payment_pct : option Q;
  interest_rate_pct : option Q;
  term_years : option Z;
  job_diversity_index : option Q;
  rent_regulation_risk : option bool;
  units : option Z;
  sqft : option Q
}.

(** The dict returned by [compute_numbers]: six fixed keys, each [None] or a
    float. *)
Record Numbers : Type := mkNumbers {
  loan_payment : option Q;
  noi_year : option Q;
  cap_rate : option Q;
  coc_return : option Q;
  dscr_stress : option Q;
  cash_flow_month : option Q
}.

Definition set_loan_payment (n : Numbers) (v : option Q) : Numbers :=
  mkNumbers v (noi_year n) (cap_rate n) (coc_return n) (dscr_stress n) (cash_flow_month n).
Definition set_noi_year (n : Numbers) (v : option Q) : Numbers :=
  mkNumbers (loan_payment n) v (cap_rate n) (coc_return n) (dscr_stress n) (cash_flow_month n).
Definition set_cap_rate (n : Numbers) (v : option Q) : Numbers :=
  mkNumbers (loan_payment n) (noi_year n) v (coc_return n) (dscr_stress n) (cash_flow_month n).
Definition set_coc_return (n : Numbers) (v : option Q) : Numbers :=
  mkNumbers (loan_payment n) (noi_year n) (cap_rate n) v (dscr_stress n) (cash_flow_month n).
Definition set_dscr_stress (n : Numbers) (v : option Q) : Numbers :=
  mkNumbers (loan_payment n) (noi_year n) (cap_rate n) (coc_return n) v (cash_flow_month n).
Definition set_cash_flow_month (n : Numbers) (v : option Q) : Numbers :=
  mkNumbers (loan_payment n) (noi_year n) (cap_rate n) (coc_return n) (dscr_stress n) v.

(** ** Metrics calculator *)

Definition monthly_payment (principal annual_rate_pct : Q) (term_years : Z) : result Q :=
  let r := (annual_rate_pct / 100) / 12 in
  let n := (term_years * 12)%Z in
  if Qle_bool r 0 then pydiv principal (inject_Z (Z.max n 1))
  else
    up <- pypow (1 + r) n ;;
    down <- pypow (1 + r) n ;;
    pydiv (principal * (r * up)) (down - 1).

(** [p.vacancy_rate if p.vacancy_rate is not None else 0.08] *)
Definition vacancy_or_default (p : PropertyData) : Q :=
  match vacancy_rate p with
  | Some v => v
  | None => 0.08
  end.

Definition compute_numbers (p : PropertyData) : result Numbers :=
  let nums := mkNumbers None None None None None None in
  nums <-
    match monthly_rent p, monthly_expenses p with
    | Some rent, Some expenses =>
        let vac := vacancy_or_default p in
        let eff_rent := rent * (1 - vac) in
        let noi_month := eff_rent - expenses in
        let nums := set_noi_year nums (Some (noi_month * 12)) in
        match price p with
        | Some pr =>
            if Qlt_bool 0 pr then
              c <- pydiv (noi_month * 12) pr ;;
              Ok (set_cap_rate nums (Some c))
            else Ok nums
        | None => Ok nums
        end
    | _, _ => Ok nums
    end ;;
  match price p, down_payment_pct p, interest_rate_pct p, term_years p with
  | Some pr, Some dp, Some rate, Some term =>
      let loan_amount := pr * (1 - dp / 100) in
      pay <- monthly_payment loan_amount rate term ;;
      let nums := set_loan_payment nums (Some pay) in
      nums <-
        match noi_year nums with
        | Some ny =>
            let noi_month := ny / 12 in
            let nums := set_cash_flow_month nums (Some (noi_month - pay)) in
            let cash_flow_year := py_or (noi_month - pay) 0 * 12 in
            let cash_invested := pr * (dp / 100) in
            if Qlt_bool 0 cash_invested then
              c <- pydiv cash_flow_year cash_invested ;;
              Ok (set_coc_return nums (Some c))
            else Ok nums
        | None => Ok nums
        end ;;
      match monthly_rent p, monthly_expenses p with
      | Some rent, Some expenses =>
          let vac := vacancy_or_default p in
          let stressed_rent := rent * 0.80 * (1 - vac) in
          let stressed_noi_m := stressed_rent - expenses in
          d <- pydiv stressed_noi_m (Qmax pay 1) ;;
          Ok (set_dscr_stress nums (Some d))
      | _, _ => Ok nums
      end
  | _, _, _, _ => Ok nums
  end.

(** ** Risk and flag evaluator *)

Definition flag_aggressive : string := "Rent-to-price looks aggressive (verify comps).".
Definition flag_vacancy : string := "Vacancy assumption looks optimistic.".
Definition flag_expenses : string := "Expenses might be understated.".
Definition flag_low_cap : string := "Low cap rate; deal relies on appreciation/execution.".
Definition flag_regulatory : string := "Regulatory pressure risk.".

(** Truthiness of an [Optional[bool]]. *)
Definition truthy (b : option bool) : bool :=
  match b with
  | Some true => true
  | _ => false
  end.

Definition ai_flags (p : PropertyData) (nums : Numbers) (included : list string)
  : result (list string) :=
  let flags : list string := [] in
  flags <-
    (if py_in "Rent & Price" included then
       match monthly_rent p, price p with
       | Some rent, Some pr =>
           if Qlt_bool 0 pr then
             gross_yield <- pydiv (rent * 12) pr ;;
             if Qlt_bool 0.14 gross_yield then Ok (flags ++ [flag_aggressive]) else Ok flags
           else Ok flags
       | _, _ => Ok flags
       end
     else Ok flags) ;;
  let flags :=
    if py_in "Vacancy" included then
      match vacancy_rate p with
      | Some v => if Qlt_bool v 0.05 then flags ++ [flag_vacancy] else flags
      | None => flags
      end
    else flags in
  let flags :=
    if py_in "Expenses" included then
      match monthly_expenses p, monthly_rent p with
      | Some expenses, Some rent =>
          if Qlt_bool expenses (rent * 0.20) then flags ++ [flag_expenses] else flags
      | _, _ => flags
      end
    else flags in
  let flags :=
    if py_in "Yield" included then
      match cap_rate nums with
      | Some c => if Qlt_bool (py_or c 0) 0.045 then flags ++ [flag_low_cap] else flags
      | None => flags
      end
    else flags in
  let flags :=
    if py_in "Regulation" included && truthy (rent_regulation_risk p)
    then flags ++ [flag_regulatory] else flags in
  Ok flags.

Definition ai_penalty (flags : list string) : Q :=
  let base :=
    fold_left
      (fun base f =>
         if contains "aggressive" f then base + 0.06
         else if contains "Vacancy" f then base + 0.08
         else if contains "Expenses" f then base + 0.06
         else if contains "Low cap" f then base + 0.06
         else if contains "Regulatory" f then base + 0.20
         else base)
      flags 0 in
  Qmin base 0.35.

Definition kill_switch (nums : Numbers) (p : PropertyData) (included : list string) : bool :=
  if py_in "Financing" included &&
     match dscr_stress nums with
     | Some d => Qlt_bool (py_or d 0) 1
     | None => false
     end
  then true
  else if py_in "Regulation" included && truthy (rent_regulation_risk p) then true
  else if py_in "Liquidity" included &&
          match days_on_market p with
          | Some dom => (180 <? dom)%Z
          | None => false
          end
  then true
  else false.

(** ** Composite scorer *)

Definition weights_high : dict Q :=
  [("cashflow", 0.32); ("downside", 0.25); ("location", 0.12); ("yield", 0.10);
   ("liquidity", 0.10); ("optionality", 0.06); ("ai_risk", 0.05)].

Definition weights_normal : dict Q :=
  [("cashflow", 0.28); ("downside", 0.20); ("location", 0.12); ("yield", 0.15);
   ("liquidity", 0.10); ("optionality", 0.10); ("ai_risk", 0.05)].

Definition get_base_weights (rate_env : string) : dict Q :=
  if String.eqb (upper rate_env) "HIGH" then weights_high else weights_normal.

Definition available_metrics (p : PropertyData) (nums : Numbers) (included : list string)
  : result (dict Q) :=
  let metrics : dict Q := [] in
  let metrics :=
    if py_in "Financing" included then
      match dscr_stress nums with
      | Some d =>
          let dscr := py_or d 0 in
          dict_set metrics "cashflow" (Qmax 0 (Qmin (dscr / 1.50) 1))
      | None => metrics
      end
    else metrics in
  metrics <-
    (if py_in "Downside" included then
       match replacement_cost p, price p with
       | Some rc, Some pr =>
           if Qlt_bool 0 pr then
             ratio <- pydiv rc pr ;;
             Ok (dict_set metrics "downside" (Qmax 0 (Qmin (ratio / 1.20) 1)))
           else Ok metrics
       | _, _ => Ok metrics
       end
     else Ok metrics) ;;
  let metrics :=
    if py_in "Location" included then
      match job_diversity_index p with
      | Some j => dict_set metrics "location" (Qmax 0 (Qmin j 1))
      | None => metrics
      end
    else metrics in
  let metrics :=
    if py_in "Yield" included then
      match cap_rate nums with
      | Some c =>
          let cap := py_or c 0 in
          dict_set metrics "yield" (Qmax 0 (Qmin (cap / 0.10) 1))
      | None => metrics
      end
    else metrics in
  let metrics :=
    if py_in "Liquidity" included then
      match days_on_market p with
      | Some dom => dict_set metrics "liquidity" (Qmax 0 (1 - inject_Z dom / 180))
      | None => metrics
      end
    else metrics in
  let metrics :=
    if py_in "Optionality" included then dict_set metrics "optionality" 0.60 else metrics in
  Ok (dict_set metrics "ai_risk" 1).

Definition normalized_score (metrics weights : dict Q) : result (Q * dict Q) :=
  let present := dict_comprehension (dict_keys metrics) (fun k => dict_get_default weights k 0) in
  let denom := py_or (py_sum (dict_values present)) 1 in
  norm_w <-
    dict_comprehension_r (dict_keys present)
      (fun k => w <- dict_index present k ;; pydiv w denom) ;;
  terms <-
    generate (fun k => m <- dict_index metrics k ;; w <- dict_index norm_w k ;; Ok (m * w))
      (dict_keys metrics) ;;
  Ok (py_sum terms * 100, norm_w).

Definition confidence_from_coverage (metrics : dict Q) (included : list string) : Q :=
  let keys := dict_keys metrics in
  let base := 0.35 + 0.10 * Qmin (inject_Z (Z.of_nat (List.length included)) / 7) 1 in
  let base := if py_in "cashflow" keys then base + 0.18 else base in
  let base := if py_in "yield" keys then base + 0.14 else base in
  let base := if py_in "downside" keys then base + 0.10 else base in
  let base := if py_in "liquidity" keys then base + 0.05 else base in
  let base := if py_in "location" keys then base + 0.05 else base in
  Qmax 0.35 (Qmin base 0.95).

Definition grade (score_val : Q) (killed : bool) : string * string :=
  if killed then ("F", "PASS")
  else if Qle_bool 90 score_val then ("A", "STRONG BUY")
  else if Qle_bool 80 score_val then ("B", "BUY")
  else if Qle_bool 70 score_val then ("C", "WATCH")
  else if Qle_bool 60 score_val then ("D", "SPECULATIVE")
  else ("F", "PASS").

(** The scoring run of the "Run AIRE Score" handler: the calls made, in
    order, between building the deal record and rendering the result. *)
Record ScoreResult : Type := mkScoreResult {
  res_nums : Numbers;
  res_metrics : dict Q;
  res_base_score : Q;
  res_norm_w : dict Q;
  res_flags : list string;
  res_penalty : Q;
  res_killed : bool;
  res_final_score : Q;
  res_confidence : Q;
  res_grade : string;
  res_verdict : string
}.

Definition run_score (p : PropertyData) (included : list string) (rate_env : string)
  : result ScoreResult :=
  nums <- compute_numbers p ;;
  let weights := get_base_weights rate_env in
  metrics <- available_metrics p nums included ;;
  scored <- normalized_score metrics weights ;;
  let '(base_score, norm_w) := scored in
  flags <- ai_flags p nums included ;;
  let penalty := ai_penalty flags in
  let killed := kill_switch nums p included in
  let final_score := Qmax (base_score * (1 - penalty)) 0 in
  let conf := confidence_from_coverage metrics included in
  let '(g, verdict) := grade final_score killed in
  Ok (mkScoreResult nums metrics base_score norm_w flags penalty killed final_score conf g verdict).

(** ** Cash-flow projector *)






Section Engine.

(** [numpy.irr] on a cash-flow series: the rate, or nothing when numpy
    answers [None] or [nan], or raises. *)
Variable np_irr : list Q -> option Q.



(** ** Sensitivity engine *)






End Engine.

(** ** Price change and narrative *)

Definition compute_price_change (p : PropertyData) : result (option Q * option Q) :=
  match price p, last_sale_price p with
  | Some pr, Some last =>
      if Qle_bool last 0 then Ok (None, None)
      else
        let abs_change := pr - last in
        pct_change <- pydiv abs_change last ;;
        Ok (Some pct_change, Some abs_change)
  | _, _ => Ok (None, None)
  end.

Definition strength_coverage : string := "Strong stress-tested coverage (DSCR ≥ 1.25).".
Definition strength_cap_rate : string := "Healthy cap rate relative to price and expenses.".
Definition strength_downside : string := "Downside buffer: at/below replacement cost.".
Definition strength_liquidity : string := "Liquidity profile looks solid (faster exit).".
Definition strength_neutral : string :=
  "Neutral strength profile; upside depends on better data and execution.".
Definition risk_none : string := "No major risk flags detected with the selected inputs.".

Definition narrative (p : PropertyData) (nums : Numbers) (flags included : list string)
  : list string * list string :=
  let strengths : list string := [] in
  let risks : list string := match flags with [] => [] | _ => flags end in
  let strengths :=
    if py_in "Financing" included &&
       match dscr_stress nums with
       | Some d => Qle_bool 1.25 (py_or d 0)
       | None => false
       end
    then strengths ++ [strength_coverage] else strengths in
  let strengths :=
    if py_in "Yield" included &&
       match cap_rate nums with
       | Some c => Qle_bool 0.07 (py_or c 0)
       | None => false
       end
    then strengths ++ [strength_cap_rate] else strengths in
  let strengths :=
    if py_in "Downside" included &&
       match replacement_cost p, price p with
       | Some rc, Some pr => Qle_bool pr rc
       | _, _ => false
       end
    then strengths ++ [strength_downside] else strengths in
  let strengths :=
    if py_in "Liquidity" included &&
       match days_on_market p with
       | Some dom => (dom <=? 45)%Z
       | None => false
       end
    then strengths ++ [strength_liquidity] else strengths in
  let strengths := match strengths with [] => strengths ++ [strength_neutral] | _ => strengths end in
  let risks := match risks with [] => risks ++ [risk_none] | _ => risks end in
  (firstn 4 strengths, firstn 5 risks).

(** ** Credits *)

Definition FREE_CREDITS : Z := 2.
Definition PRO_CREDITS : Z := 5000.
Definition CREDIT_COST_PER_ANALYSIS : Z := 1.

(** A row of the [users] table, keyed by its primary key [email]. *)
Record user_row : Type := mkUserRow {
  credits : Z;
  paid : Z;
  created_at : Z;
  updated_at : Z
}.

(** The [users] table; [now] below is the value of [_now()] at the call. *)
Definition users_table : Type := dict user_row.

(** [UPDATE users SET ... WHERE email=?]: rewrites the row of [email], if
    there is one. *)
Fixpoint update_where_email (db : users_table) (email : string) (f : user_row -> user_row)
  : users_table :=
  match db with
  | [] => []
  | (e, row) :: rest =>
      if String.eqb e email then (e, f row) :: rest
      else (e, row) :: update_where_email rest email f
  end.

(** The dict returned by [get_user]. *)
Record user_info : Type := mkUserInfo {
  info_email : string;
  info_credits : Z;
  info_paid : Z
}.

Definition get_user (db : users_table) (now : Z) (email : string) : users_table * user_info :=
  match dict_get db email with
  | None =>
      (db ++ [(email, mkUserRow FREE_CREDITS 0 now now)], mkUserInfo email FREE_CREDITS 0)
  | Some row => (db, mkUserInfo email (credits row) (paid row))
  end.

Definition set_paid (db : users_table) (now : Z) (email : string) (paid_flag : Z) : users_table :=
  let new_credits := if (paid_flag =? 0)%Z then FREE_CREDITS else PRO_CREDITS in
  update_where_email db email
    (fun row => mkUserRow new_credits paid_flag (created_at row) now).

Definition spend_credit (db : users_table) (now : Z) (email : string) (amount : Z)
  : users_table * bool :=
  match dict_get db email with
  | None => (db, false)
  | Some row =>
      if negb (paid row =? 0)%Z then (db, true)
      else if (credits row <? amount)%Z then (db, false)
      else
        (update_where_email db email
           (fun r => mkUserRow (credits r - amount) (paid r) (created_at r) now),
         true)
  end.

(** ** Provider payloads *)

(** A decoded JSON payload. *)
Unset Elimination Schemes.
Inductive json : Type :=
| JNull
| JBool (b : bool)
| JNum (q : Q)
| JStr (s : string)
| JList (items : list json)
| JDict (fields : list (string * json)).
Set Elimination Schemes.

(** [_safe_get(d, path)], the definition in force (the second one of the
    module); Python's [None] is [JNull]. *)
Fixpoint _safe_get (d : json) (path : list string) : json :=
  match path with
  | [] => d
  | k :: rest =>
      match d with
      | JDict fields =>
          match dict_get fields k with
          | Some v => _safe_get v rest
          | None => JNull
          end
      | _ => JNull
      end
  end.

(** ** Vocabulary of the specification *)

Definition all_modules : list string :=
  ["Rent & Price"; "Expenses"; "Vacancy"; "Financing"; "Yield"; "Downside";
   "Liquidity"; "Location"; "Regulation"; "Last Sale"; "Optionality"].

Definition metric_names : list string :=
  ["cashflow"; "downside"; "location"; "yield"; "liquidity"; "optionality"; "ai_risk"].

Definition Qsum (xs : list Q) : Q := fold_right Qplus 0 xs.

(** The points one flag contributes to the penalty: the first substring of
    the chain that occurs in the flag's text decides. *)
Definition flag_points (f : string) : Q :=
  if contains "aggressive" f then 0.06
  else if contains "Vacancy" f then 0.08
  else if contains "Expenses" f then 0.06
  else if contains "Low cap" f then 0.06
  else if contains "Regulatory" f then 0.20
  else 0.

Definition opt_all {A : Type} (P : A -> Prop) (o : option A) : Prop :=
  match o with
  | Some a => P a
  | None => True
  end.


(** The record of the cap-rate example, every other field absent. *)
Definition cap_rate_example : PropertyData :=
  mkPropertyData "Multifamily" "" (Some 500000) None None None None
    (Some 4000) (Some 1200) (Some 0.08) None None None None None None None None None None.

(** [o] holds a number equal to [q]. *)
Definition holds (o : option Q) (q : Q) : Prop :=
  match o with
  | Some v => v == q
  | None => False
  end.

(** The weight [normalized_score] reads for a key, and the sum it divides
    by. *)
Definition weight_of (weights : dict Q) (k : string) : Q := dict_get_default weights k 0.

Definition denominator (metrics weights : dict Q) : Q :=
  py_or (py_sum (map (weight_of weights) (dict_keys metrics))) 1.

(** *** The numbers bundle, value by value

    Each value of the bundle as a function of the fields it is gated on;
    [loan_call] is the one call that can raise. *)

Definition noi_of (p : PropertyData) : option Q :=
  match monthly_rent p, monthly_expenses p with
  | Some rent, Some expenses => Some ((rent * (1 - vacancy_or_default p) - expenses) * 12)
  | _, _ => None
  end.

Definition cap_of (p : PropertyData) : option Q :=
  match noi_of p, price p with
  | Some noi, Some pr => if Qlt_bool 0 pr then Some (noi / pr) else None
  | _, _ => None
  end.

Definition loan_call (p : PropertyData) : option (result Q) :=
  match price p, down_payment_pct p, interest_rate_pct p, term_years p with
  | Some pr, Some dp, Some rate, Some term =>
      Some (monthly_payment (pr * (1 - dp / 100)) rate term)
  | _, _, _, _ => None
  end.

Definition cash_flow_of (p : PropertyData) (pay : Q) : option Q :=
  match noi_of p with
  | Some noi => Some (noi / 12 - pay)
  | None => None
  end.

Definition coc_of (p : PropertyData) (pay : Q) : option Q :=
  match noi_of p, price p, down_payment_pct p with
  | Some noi, Some pr, Some dp =>
      if Qlt_bool 0 (pr * (dp / 100))
      then Some (py_or (noi / 12 - pay) 0 * 12 / (pr * (dp / 100)))
      else None
  | _, _, _ => None
  end.

Definition dscr_of (p : PropertyData) (pay : Q) : option Q :=
  match monthly_rent p, monthly_expenses p with
  | Some rent, Some expenses =>
      Some ((rent * 0.80 * (1 - vacancy_or_default p) - expenses) / Qmax pay 1)
  | _, _ => None
  end.

Definition numbers_of (p : PropertyData) : result Numbers :=
  match loan_call p with
  | None => Ok (mkNumbers None (noi_of p) (cap_of p) None None None)
  | Some (Raise e) => Raise e
  | Some (Ok pay) =>
      Ok (mkNumbers (Some pay) (noi_of p) (cap_of p) (coc_of p pay) (dscr_of p pay)
            (cash_flow_of p pay))
  end.

(** *** The metrics map, entry by entry *)

Definition entry (k : string) (v : option Q) : dict Q :=
  match v with
  | Some x => [(k, x)]
  | None => []
  end.

Definition gated (module : string) (included : list string) (v : option Q) : option Q :=
  if py_in module included then v else None.

Definition cashflow_metric (nums : Numbers) : option Q :=
  option_map (fun d => Qmax 0 (Qmin (py_or d 0 / 1.50) 1)) (dscr_stress nums).

Definition downside_metric (p : PropertyData) : option Q :=
  match replacement_cost p, price p with
  | Some rc, Some pr => if Qlt_bool 0 pr then Some (Qmax 0 (Qmin (rc / pr / 1.20) 1)) else None
  | _, _ => None
  end.

Definition location_metric (p : PropertyData) : option Q :=
  option_map (fun j => Qmax 0 (Qmin j 1)) (job_diversity_index p).

Definition yield_metric (nums : Numbers) : option Q :=
  option_map (fun c => Qmax 0 (Qmin (py_or c 0 / 0.10) 1)) (cap_rate nums).

Definition liquidity_metric (p : PropertyData) : option Q :=
  option_map (fun dom => Qmax 0 (1 - inject_Z dom / 180)) (days_on_market p).

Definition metrics_of (p : PropertyData) (nums : Numbers) (included : list string) : dict Q :=
  entry "cashflow" (gated "Financing" included (cashflow_metric nums))
  ++ entry "downside" (gated "Downside" included (downside_metric p))
  ++ entry "location" (gated "Location" included (location_metric p))
  ++ entry "yield" (gated "Yield" included (yield_metric nums))
  ++ entry "liquidity" (gated "Liquidity" included (liquidity_metric p))
  ++ entry "optionality" (gated "Optionality" included (Some 0.60))
  ++ [("ai_risk", 1)].


Definition healthy_deal : PropertyData :=
  mkPropertyData "Multifamily" "12 Elm St" (Some 500000) (Some 550000) (Some 30%Z)
    (Some 450000) (Some "2019-06-01") (Some 4000) (Some 1200) (Some 0.05) (Some 95)
    (Some 30000) (Some 6) (Some 25) (Some 0) (Some 30%Z) (Some 0.74) (Some false)
    (Some 4%Z) (Some 3600).

(** *** Session state and the sensitivity grids *)



(** An all-cash purchase at 100000 with no other field given. *)
Definition all_cash_deal : PropertyData :=
  mkPropertyData "Land" "" (Some 100000) None None None None
    None None None None None None None None None None None None None.

Definition no_numbers : Numbers := mkNumbers None None None None None None.



(** *** Removing one optional field *)









(** Both absent or both present. *)
Definition same_presence {A B : Type} (o : option A) (o' : option B) : Prop :=
  o = None <-> o' = None.



(** Only the [yield] and [location] metrics, as in the renormalization
    example. *)
Definition two_metrics : dict Q := [("yield", 0.5); ("location", 0.74)].

(** *** Loans *)



Definition present {A : Type} (o : option A) : Prop := o <> None.

(** *** Flags *)

(** The five flag texts, in the order of the checks of [ai_flags]. *)
Definition flag_texts : list string :=
  [flag_aggressive; flag_vacancy; flag_expenses; flag_low_cap; flag_regulatory].

(** [xs] is [ys] with some elements left out. *)
Fixpoint subseq (xs ys : list string) : bool :=
  match xs, ys with
  | [], _ => true
  | _ :: _, [] => false
  | x :: xs', y :: ys' => if String.eqb x y then subseq xs' ys' else subseq xs ys'
  end.

(** The condition of each check of [ai_flags]. *)
Definition aggressive_rent (p : PropertyData) (included : list string) : bool :=
  py_in "Rent & Price" included &&
  match monthly_rent p, price p with
  | Some rent, Some pr => Qlt_bool 0 pr && Qlt_bool 0.14 (rent * 12 / pr)
  | _, _ => false
  end.

Definition optimistic_vacancy (p : PropertyData) (included : list string) : bool :=
  py_in "Vacancy" included &&
  match vacancy_rate p with
  | Some v => Qlt_bool v 0.05
  | None => false
  end.

Definition understated_expenses (p : PropertyData) (included : list string) : bool :=
  py_in "Expenses" included &&
  match monthly_expenses p, monthly_rent p with
  | Some expenses, Some rent => Qlt_bool expenses (rent * 0.20)
  | _, _ => false
  end.

Definition low_cap_rate (nums : Numbers) (included : list string) : bool :=
  py_in "Yield" included &&
  match cap_rate nums with
  | Some c => Qlt_bool (py_or c 0) 0.045
  | None => false
  end.

Definition regulatory_pressure (p : PropertyData) (included : list string) : bool :=
  py_in "Regulation" included && truthy (rent_regulation_risk p).

Definition flag_if (b : bool) (f : string) : list string := if b then [f] else [].

(** The grades from worst to best. *)
Definition grade_rank (g : string) : nat :=
  if String.eqb g "A" then 4
  else if String.eqb g "B" then 3
  else if String.eqb g "C" then 2
  else if String.eqb g "D" then 1
  else 0.

(** *** Scoring without inputs *)



(** *** Discounting *)


(** *** The projected years *)






(** *** The credit ledger *)

(** No negative balance, and one row per email. *)
Definition ledger_ok (db : users_table) : Prop :=
  Forall (fun kv => (0 <= credits (snd kv))%Z) db /\ NoDup (dict_keys db).

(** [n] analyses in a row, each asking [spend_credit] first: the table
    afterwards and the number of analyses allowed. *)
Fixpoint spend_times (db : users_table) (now : Z) (email : string) (amount : Z) (n : nat)
  : users_table * nat :=
  match n with
  | O => (db, O)
  | S n' =>
      let '(db', ok) := spend_credit db now email amount in
      let '(db'', allowed) := spend_times db' now email amount n' in
      (db'', if ok then S allowed else allowed)
  end.

(** *** The sensitivity grid, cell by cell *)






(** *** Example inputs *)


(** A rented building under rent regulation. *)
Definition regulated_deal : PropertyData :=
  mkPropertyData "Multifamily" "" (Some 500000) None (Some 30%Z) None None
    (Some 4000) (Some 1200) (Some 0.08) None None None None None None None (Some true) None None.

(** A metrics map with all seven metrics. *)
Definition seven_metrics : dict Q :=
  [("ai_risk", 1); ("optionality", 0.60); ("liquidity", 0.5); ("yield", 0.6);
   ("location", 0.74); ("downside", 0.9); ("cashflow", 0.8)].


(** A ledger with a free user and a paid one. *)
Definition two_users : users_table :=
  [("ann@example.com", mkUserRow 2 0 100 100); ("bob@example.com", mkUserRow 0 1 100 100)].

(** A provider payload whose sale record is null. *)
Definition estated_payload : json :=
  JDict [("property", JDict [("last_sale_price", JNum 250000); ("sale", JNull)])].

(** ** Properties *)

(** *** Proof automation *)



(** *** The example deal *)



(** *** Arithmetic and booleans *)

Lemma Qlt_bool_iff (a b : Q) : Qlt_bool a b = true <-> a < b.
Proof.
  unfold Qlt_bool. rewrite negb_true_iff, <- not_true_iff_false, Qle_bool_iff.
  split; [apply Qnot_le_lt | apply Qlt_not_le].
Qed.

Lemma Qeq_bool_false (a b : Q) : Qeq_bool a b = false <-> ~ a == b.
Proof.
  rewrite <- not_true_iff_false, Qeq_bool_iff. tauto.
Qed.

Lemma pydiv_ok (a b : Q) : ~ b == 0 -> pydiv a b = Ok (a / b).
Proof.
  intros H. unfold pydiv. apply Qeq_bool_false in H. now rewrite H.
Qed.


(** *** The penalty *)

Lemma flag_points_nonneg (f : string) : 0 <= flag_points f.
Proof.
  unfold flag_points.
  repeat match goal with |- context [if ?c then _ else _] => destruct c end; lra.
Qed.

Lemma Qsum_flag_points_nonneg (flags : list string) : 0 <= Qsum (map flag_points flags).
Proof.
  induction flags as [|f flags IH]; simpl; [lra|].
  pose proof (flag_points_nonneg f). lra.
Qed.

Lemma ai_penalty_loop (flags : list string) (acc : Q) :
  fold_left
    (fun base f =>
       if contains "aggressive" f then base + 0.06
       else if contains "Vacancy" f then base + 0.08
       else if contains "Expenses" f then base + 0.06
       else if contains "Low cap" f then base + 0.06
       else if contains "Regulatory" f then base + 0.20
       else base)
    flags acc
  == acc + Qsum (map flag_points flags).
Proof.
  revert acc. induction flags as [|f flags IH]; intros acc; simpl; [lra|].
  rewrite IH. unfold flag_points.
  repeat match goal with |- context [if ?c then _ else _] => destruct c end; lra.
Qed.

(** C7.  For every list of flags, [ai_penalty] is the sum of the per-flag
    points, capped at 0.35, and so lies between 0 and 0.35; the five flag
    texts of [ai_flags] carry 0.06, 0.08, 0.06, 0.06 and 0.20 points. *)
Theorem ai_penalty_capped_sum (flags : list string) :
  ai_penalty flags == Qmin (Qsum (map flag_points flags)) 0.35 /\
  0 <= ai_penalty flags <= 0.35 /\
  flag_points flag_aggressive = 0.06 /\
  flag_points flag_vacancy = 0.08 /\
  flag_points flag_expenses = 0.06 /\
  flag_points flag_low_cap = 0.06 /\
  flag_points flag_regulatory = 0.20.
Proof.
  pose proof (Qsum_flag_points_nonneg flags) as Hs.
  pose proof (ai_penalty_loop flags 0) as Hl.
  unfold ai_penalty.
  set (base := fold_left _ flags 0) in *.
  set (total := Qsum (map flag_points flags)) in *.
  assert (Hb : base == total) by lra.
  repeat split; try reflexivity.
  - destruct (Q.min_spec base 0.35) as [[? H1] | [? H1]];
    destruct (Q.min_spec total 0.35) as [[? H2] | [? H2]]; lra.
  - destruct (Q.min_spec base 0.35) as [[? H1] | [? H1]]; lra.
  - destruct (Q.min_spec base 0.35) as [[? H1] | [? H1]]; lra.
Qed.


(** *** Grade *)

(** C2.  Once the kill switch has fired, the grade is F and the verdict is
    PASS, whatever the score. *)
Theorem grade_killed (score_val : Q) : grade score_val true = ("F", "PASS").
Proof. reflexivity. Qed.

(** *** Dictionaries *)



(** *** Metrics *)

Lemma guarded_div (a b : Q) : Qlt_bool 0 b = true -> pydiv a b = Ok (a / b).
Proof.
  intros H. apply Qlt_bool_iff in H. apply pydiv_ok. lra.
Qed.


(** *** Worked examples of the metrics calculator *)

(** C6, as the code computes it.  For price 500000, rent 4000, expenses
    1200 and vacancy 0.08, [compute_numbers] gives an annual NOI of 29,760
    and a cap rate of 0.05952. *)
Theorem cap_rate_example_numbers :
  returns (compute_numbers cap_rate_example)
    (fun nums => holds (noi_year nums) 29760 /\ holds (cap_rate nums) 0.05952).
Proof.
  vm_compute. split; reflexivity.
Qed.

(** C6, as the specification words it: the figures 29,952 and 0.059904 are
    not the ones [compute_numbers] returns. *)
Lemma cap_rate_example_not_29952 :
  ~ returns (compute_numbers cap_rate_example)
      (fun nums => holds (noi_year nums) 29952 /\ holds (cap_rate nums) 0.059904).
Proof.
  vm_compute. intros [H _]. discriminate H.
Qed.

(** *** Amortization *)

Lemma growth_factor_not_1 (a : Q) (n : Z) : 1 < a -> n <> 0%Z -> ~ a ^ n - 1 == 0.
Proof.
  intros Ha Hn.
  destruct (Z.lt_total n 0) as [Hneg | [H0 | Hpos]]; [| contradiction |].
  - assert (Hm : (0 < - n)%Z) by lia.
    pose proof (Qpower_1_lt a (- n) Ha Hm) as Hgt.
    rewrite Qpower_opp in Hgt.
    assert (Hp : 0 < a ^ n) by (apply Qpower_0_lt; lra).
    assert (Hinv : a ^ n * / a ^ n == 1) by (apply Qmult_inv_r; lra).
    intros Heq. assert (E : a ^ n == 1) by lra.
    rewrite E in Hgt. vm_compute in Hgt. discriminate Hgt.
  - pose proof (Qpower_1_lt a n Ha Hpos). lra.
Qed.

Lemma monthly_payment_zero_rate (principal annual_rate_pct : Q) (term_years : Z) :
  annual_rate_pct / 100 / 12 <= 0 ->
  monthly_payment principal annual_rate_pct term_years
  = Ok (principal / inject_Z (Z.max (term_years * 12) 1)).
Proof.
  intros Hr. unfold monthly_payment.
  apply Qle_bool_iff in Hr. rewrite Hr.
  apply pydiv_ok.
  assert (H : (1 <= Z.max (term_years * 12) 1)%Z) by lia.
  rewrite Zle_Qle in H. change (inject_Z 1) with 1 in H. lra.
Qed.

Lemma monthly_payment_amortized (principal annual_rate_pct : Q) (term_years : Z) :
  0 < annual_rate_pct / 100 / 12 -> term_years <> 0%Z ->
  monthly_payment principal annual_rate_pct term_years
  = Ok (principal
        * (annual_rate_pct / 100 / 12 * (1 + annual_rate_pct / 100 / 12) ^ (term_years * 12))
        / ((1 + annual_rate_pct / 100 / 12) ^ (term_years * 12) - 1)).
Proof.
  intros Hr Hn. unfold monthly_payment.
  set (r := annual_rate_pct / 100 / 12) in *.
  assert (Hle : Qle_bool r 0 = false).
  { apply not_true_iff_false. rewrite Qle_bool_iff. lra. }
  rewrite Hle. unfold pypow.
  assert (Hnz : Qeq_bool (1 + r) 0 = false) by (apply Qeq_bool_false; lra).
  rewrite Hnz. cbn [andb bind].
  apply pydiv_ok. apply growth_factor_not_1; [lra | lia].
Qed.



(** *** Comprehensions over the keys of a dict *)

Lemma dict_set_fresh {V : Type} (d : dict V) (k : string) (v : V) :
  ~ In k (dict_keys d) -> dict_set d k v = d ++ [(k, v)].
Proof.
  induction d as [|[k' v'] d IH]; simpl; intros Hk; [reflexivity|].
  destruct (String.eqb k' k) eqn:E.
  - apply String.eqb_eq in E. tauto.
  - rewrite IH by tauto. reflexivity.
Qed.

Lemma dict_keys_app {V : Type} (d1 d2 : dict V) :
  dict_keys (d1 ++ d2) = dict_keys d1 ++ dict_keys d2.
Proof. apply map_app. Qed.

Lemma dict_keys_tabulate {V : Type} (g : string -> V) (keys : list string) :
  dict_keys (map (fun k => (k, g k)) keys) = keys.
Proof.
  unfold dict_keys. rewrite map_map. simpl. apply map_id.
Qed.

Lemma dict_values_tabulate {V : Type} (g : string -> V) (keys : list string) :
  dict_values (map (fun k => (k, g k)) keys) = map g keys.
Proof.
  unfold dict_values. rewrite map_map. reflexivity.
Qed.

Lemma dict_comprehension_r_from {V : Type} (f : string -> result V) (g : string -> V)
    (keys : list string) (acc : dict V) :
  (forall k, In k keys -> f k = Ok (g k)) ->
  NoDup (dict_keys acc ++ keys) ->
  fold_left (fun acc k => d <- acc ;; v <- f k ;; Ok (dict_set d k v)) keys (Ok acc)
  = Ok (acc ++ map (fun k => (k, g k)) keys).
Proof.
  revert acc. induction keys as [|k keys IH]; intros acc Hf Hnd; simpl.
  - now rewrite app_nil_r.
  - rewrite (Hf k) by (now left). cbn [bind].
    assert (Hfresh : ~ In k (dict_keys acc)).
    { intros Hin. apply NoDup_remove_2 in Hnd. apply Hnd, in_or_app. now left. }
    rewrite (dict_set_fresh acc k (g k) Hfresh).
    rewrite IH.
    + now rewrite <- app_assoc.
    + intros k' Hk'. apply Hf. now right.
    + rewrite dict_keys_app, <- app_assoc. exact Hnd.
Qed.

Lemma dict_comprehension_r_NoDup {V : Type} (f : string -> result V) (g : string -> V)
    (keys : list string) :
  (forall k, In k keys -> f k = Ok (g k)) -> NoDup keys ->
  dict_comprehension_r keys f = Ok (map (fun k => (k, g k)) keys).
Proof.
  intros Hf Hnd. exact (dict_comprehension_r_from f g keys [] Hf Hnd).
Qed.

Lemma dict_comprehension_from {V : Type} (g : string -> V) (keys : list string) (acc : dict V) :
  NoDup (dict_keys acc ++ keys) ->
  fold_left (fun d k => dict_set d k (g k)) keys acc = acc ++ map (fun k => (k, g k)) keys.
Proof.
  revert acc. induction keys as [|k keys IH]; intros acc Hnd; simpl.
  - now rewrite app_nil_r.
  - assert (Hfresh : ~ In k (dict_keys acc)).
    { intros Hin. apply NoDup_remove_2 in Hnd. apply Hnd, in_or_app. now left. }
    rewrite (dict_set_fresh acc k (g k) Hfresh), IH.
    + now rewrite <- app_assoc.
    + rewrite dict_keys_app, <- app_assoc. exact Hnd.
Qed.

Lemma dict_comprehension_NoDup {V : Type} (g : string -> V) (keys : list string) :
  NoDup keys -> dict_comprehension keys g = map (fun k => (k, g k)) keys.
Proof.
  intros Hnd. exact (dict_comprehension_from g keys [] Hnd).
Qed.

Lemma dict_get_tabulate {V : Type} (g : string -> V) (keys : list string) (k : string) :
  In k keys -> dict_get (map (fun k => (k, g k)) keys) k = Some (g k).
Proof.
  induction keys as [|k' keys IH]; simpl; [tauto|].
  intros Hin. destruct (String.eqb k' k) eqn:E.
  - apply String.eqb_eq in E. now subst.
  - destruct Hin as [-> | Hin]; [now rewrite String.eqb_refl in E | now apply IH].
Qed.

Lemma dict_get_key {V : Type} (d : dict V) (k : string) :
  In k (dict_keys d) -> exists v, dict_get d k = Some v.
Proof.
  induction d as [|[k' v'] d IH]; simpl; [tauto|].
  intros Hin. destruct (String.eqb k' k) eqn:E; [now exists v'|].
  destruct Hin as [-> | Hin]; [now rewrite String.eqb_refl in E | now apply IH].
Qed.

Lemma dict_get_default_key {V : Type} (d : dict V) (k : string) (default : V) :
  In k (dict_keys d) -> dict_get d k = Some (dict_get_default d k default).
Proof.
  intros Hin. unfold dict_get_default.
  destruct (dict_get_key d k Hin) as [v ->]. reflexivity.
Qed.

Lemma generate_total {A B : Type} (f : A -> result B) (g : A -> B) (xs : list A) :
  (forall x, In x xs -> f x = Ok (g x)) -> generate f xs = Ok (map g xs).
Proof.
  induction xs as [|x xs IH]; intros Hf; simpl; [reflexivity|].
  rewrite (Hf x) by (now left). cbn [bind].
  rewrite IH by (intros y Hy; apply Hf; now right). reflexivity.
Qed.

(** *** Sums *)

Lemma py_sum_from (xs : list Q) (acc : Q) : fold_left Qplus xs acc == acc + Qsum xs.
Proof.
  revert acc. induction xs as [|x xs IH]; intros acc; simpl; [lra|].
  rewrite IH. lra.
Qed.

Lemma py_sum_Qsum (xs : list Q) : py_sum xs == Qsum xs.
Proof.
  unfold py_sum. rewrite py_sum_from. lra.
Qed.

Lemma Qsum_div {A : Type} (f : A -> Q) (c : Q) (xs : list A) :
  Qsum (map (fun x => f x / c) xs) == Qsum (map f xs) / c.
Proof.
  induction xs as [|x xs IH]; simpl.
  - unfold Qdiv. ring.
  - rewrite IH. unfold Qdiv. ring.
Qed.


Lemma Qsum_nonneg {A : Type} (f : A -> Q) (xs : list A) :
  (forall x, In x xs -> 0 <= f x) -> 0 <= Qsum (map f xs).
Proof.
  induction xs as [|x xs IH]; intros Hf; simpl; [lra|].
  assert (0 <= f x) by (apply Hf; now left).
  assert (0 <= Qsum (map f xs)) by (apply IH; intros y Hy; apply Hf; now right).
  lra.
Qed.


Lemma Qsum_pos {A : Type} (f : A -> Q) (xs : list A) :
  xs <> [] -> (forall x, In x xs -> 0 < f x) -> 0 < Qsum (map f xs).
Proof.
  destruct xs as [|x xs]; [congruence|]. intros _ Hf. simpl.
  assert (0 < f x) by (apply Hf; now left).
  assert (0 <= Qsum (map f xs)).
  { apply Qsum_nonneg. intros y Hy. apply Qlt_le_weak, Hf. now right. }
  lra.
Qed.

(** *** Weight renormalization *)

Lemma denominator_not_0 (metrics weights : dict Q) : ~ denominator metrics weights == 0.
Proof.
  unfold denominator, py_or.
  destruct (Qeq_bool _ 0) eqn:E; [lra | now apply Qeq_bool_false].
Qed.

(** [normalized_score] on a dict never raises; its two results in closed
    form. *)
Lemma normalized_score_spec (metrics weights : dict Q) :
  NoDup (dict_keys metrics) ->
  normalized_score metrics weights
  = Ok (py_sum (map (fun k => dict_get_default metrics k 0
                              * (weight_of weights k / denominator metrics weights))
                  (dict_keys metrics)) * 100,
        map (fun k => (k, weight_of weights k / denominator metrics weights))
          (dict_keys metrics)).
Proof.
  intros Hnd. unfold normalized_score.
  fold (weight_of weights).
  rewrite (dict_comprehension_NoDup (weight_of weights) _ Hnd).
  rewrite dict_keys_tabulate, dict_values_tabulate.
  fold (denominator metrics weights).
  pose proof (denominator_not_0 metrics weights) as Hd.
  set (denom := denominator metrics weights) in *.
  rewrite (dict_comprehension_r_NoDup _ (fun k => weight_of weights k / denom)); [| | exact Hnd].
  - cbn [bind].
    rewrite (generate_total _
               (fun k => dict_get_default metrics k 0 * (weight_of weights k / denom))).
    + reflexivity.
    + intros k Hk. unfold dict_index.
      rewrite (dict_get_default_key metrics k 0 Hk).
      rewrite (dict_get_tabulate (fun k => weight_of weights k / denom) _ _ Hk).
      reflexivity.
  - intros k Hk. unfold dict_index.
    rewrite (dict_get_tabulate (weight_of weights) _ _ Hk). cbn [bind].
    now apply pydiv_ok.
Qed.





Lemma base_weight_pos (rate_env k : string) :
  In k metric_names -> 0 < weight_of (get_base_weights rate_env) k.
Proof.
  unfold get_base_weights. intros Hin.
  destruct (String.eqb (upper rate_env) "HIGH");
    repeat (destruct Hin as [<- | Hin]; [reflexivity|]); destruct Hin.
Qed.

(** C3.  For a non-empty metrics map over the seven metric names, the
    normalized weights [normalized_score] returns sum to 1, hence to 1
    within 1e-9, under the weights of every rate environment. *)
Theorem normalized_weights_sum_to_one (metrics : dict Q) (rate_env : string) :
  metrics <> [] ->
  NoDup (dict_keys metrics) ->
  incl (dict_keys metrics) metric_names ->
  returns (normalized_score metrics (get_base_weights rate_env))
    (fun r =>
       py_sum (dict_values (snd r)) == 1 /\
       Qabs (py_sum (dict_values (snd r)) - 1) <= 1e-9).
Proof.
  intros Hne Hnd Hincl.
  rewrite normalized_score_spec by exact Hnd. cbn [returns snd].
  rewrite dict_values_tabulate.
  set (weights := get_base_weights rate_env).
  assert (Hpos : 0 < Qsum (map (weight_of weights) (dict_keys metrics))).
  { apply Qsum_pos.
    - destruct metrics; [congruence | discriminate].
    - intros k Hk. apply base_weight_pos, Hincl, Hk. }
  assert (Hden : denominator metrics weights
                 == Qsum (map (weight_of weights) (dict_keys metrics))).
  { unfold denominator, py_or. rewrite <- py_sum_Qsum in Hpos.
    destruct (Qeq_bool _ 0) eqn:E.
    - apply Qeq_bool_iff in E. lra.
    - apply py_sum_Qsum. }
  assert (Hone : py_sum (map (fun k => weight_of weights k / denominator metrics weights)
                           (dict_keys metrics)) == 1).
  { rewrite py_sum_Qsum, Qsum_div, Hden. field. lra. }
  split; [exact Hone|].
  rewrite Hone. vm_compute. discriminate.
Qed.

Lemma normalized_weights_sum_to_one_witness :
  (two_metrics <> [] /\ NoDup (dict_keys two_metrics) /\
   incl (dict_keys two_metrics) metric_names) /\
  returns (normalized_score two_metrics (get_base_weights "HIGH"))
    (fun r =>
       py_sum (dict_values (snd r)) == 1 /\
       Qabs (py_sum (dict_values (snd r)) - 1) <= 1e-9).
Proof.
  assert (H1 : two_metrics <> []) by discriminate.
  assert (H2 : NoDup (dict_keys two_metrics)).
  { repeat constructor; simpl; intuition discriminate. }
  assert (H3 : incl (dict_keys two_metrics) metric_names).
  { intros k [<- | [<- | []]]; simpl; tauto. }
  split; [repeat split; assumption |].
  exact (normalized_weights_sum_to_one two_metrics "HIGH" H1 H2 H3).
Defined.

(** The renormalization example: under HIGH with only [yield] and
    [location] present, the weights are 0.10/0.22 and 0.12/0.22. *)
Example renormalization_example :
  returns (normalized_score two_metrics weights_high)
    (fun r =>
       holds (dict_get (snd r) "yield") (0.10 / 0.22) /\
       holds (dict_get (snd r) "location") (0.12 / 0.22)).
Proof.
  vm_compute. split; reflexivity.
Qed.

(** *** The metrics calculator, value by value *)

Lemma stress_divisor_not_0 (pay : Q) : ~ Qmax pay 1 == 0.
Proof.
  destruct (Q.max_spec pay 1) as [[? H] | [? H]]; lra.
Qed.

(** [compute_numbers] gates each value on its own prerequisites. *)
Lemma compute_numbers_spec (p : PropertyData) : compute_numbers p = numbers_of p.
Proof.
  unfold compute_numbers, numbers_of, loan_call, coc_of, cash_flow_of, dscr_of, cap_of, noi_of.
  destruct (monthly_rent p) as [rent|], (monthly_expenses p) as [expenses|],
    (price p) as [pr|], (down_payment_pct p) as [dp|], (interest_rate_pct p) as [rate|],
    (term_years p) as [term|];
    try (destruct (Qlt_bool 0 pr) eqn:Hpr; [rewrite ?(guarded_div _ _ Hpr)|]);
    cbn [bind noi_year set_noi_year set_cap_rate set_loan_payment set_coc_return
         set_dscr_stress set_cash_flow_month loan_payment cap_rate coc_return dscr_stress
         cash_flow_month];
    try reflexivity;
    destruct (monthly_payment (pr * (1 - dp / 100)) rate term) as [pay|e];
    cbn [bind noi_year set_noi_year set_cap_rate set_loan_payment set_coc_return
         set_dscr_stress set_cash_flow_month loan_payment cap_rate coc_return dscr_stress
         cash_flow_month];
    try reflexivity;
    try (destruct (Qlt_bool 0 (pr * (dp / 100))) eqn:Hci; [rewrite (guarded_div _ _ Hci)|]);
    cbn [bind noi_year set_noi_year set_cap_rate set_loan_payment set_coc_return
         set_dscr_stress set_cash_flow_month loan_payment cap_rate coc_return dscr_stress
         cash_flow_month];
    rewrite ?(pydiv_ok _ _ (stress_divisor_not_0 pay));
    reflexivity.
Qed.

(** *** The metrics map, entry by entry *)

(** [available_metrics] never raises and lists the gated entries in the
    order of its checks, [ai_risk] last. *)
Lemma available_metrics_spec (p : PropertyData) (nums : Numbers) (included : list string) :
  available_metrics p nums included = Ok (metrics_of p nums included).
Proof.
  unfold available_metrics, metrics_of, gated, cashflow_metric, downside_metric,
    location_metric, yield_metric, liquidity_metric.
  destruct (py_in "Financing" included), (py_in "Downside" included),
    (py_in "Location" included), (py_in "Yield" included), (py_in "Liquidity" included),
    (py_in "Optionality" included);
    cbn [option_map];
    repeat match goal with
    | |- context [match ?o with Some _ => _ | None => _ end] =>
        lazymatch o with
        | dscr_stress nums => destruct o
        | replacement_cost p => destruct o
        | price p => destruct o as [pr|]
        | job_diversity_index p => destruct o
        | cap_rate nums => destruct o
        | days_on_market p => destruct o
        end
    end;
    try (destruct (Qlt_bool 0 pr) eqn:Hpr; [rewrite ?(guarded_div _ _ Hpr)|]);
    reflexivity.
Qed.



Lemma metrics_of_NoDup (p : PropertyData) (nums : Numbers) (included : list string) :
  NoDup (dict_keys (metrics_of p nums included)).
Proof.
  unfold metrics_of.
  destruct (gated "Financing" included (cashflow_metric nums)),
    (gated "Downside" included (downside_metric p)),
    (gated "Location" included (location_metric p)),
    (gated "Yield" included (yield_metric nums)),
    (gated "Liquidity" included (liquidity_metric p)),
    (gated "Optionality" included (Some 0.60));
    cbn [entry app dict_keys map fst];
    repeat (constructor; [cbn [In]; intuition discriminate |]); constructor.
Qed.




(** *** The scoring run *)

Lemma monthly_payment_returns (principal annual_rate_pct : Q) (term_years : Z) :
  term_years <> 0%Z -> exists pay, monthly_payment principal annual_rate_pct term_years = Ok pay.
Proof.
  intros Hn. destruct (Qlt_le_dec 0 (annual_rate_pct / 100 / 12)) as [Hr | Hr].
  - eexists. now apply monthly_payment_amortized.
  - eexists. now apply monthly_payment_zero_rate.
Qed.

Lemma compute_numbers_returns (p : PropertyData) :
  opt_all (fun t => t <> 0%Z) (term_years p) -> exists nums, compute_numbers p = Ok nums.
Proof.
  intros Hterm. rewrite compute_numbers_spec. unfold numbers_of, loan_call.
  destruct (price p) as [pr|], (down_payment_pct p) as [dp|], (interest_rate_pct p) as [rate|],
    (term_years p) as [term|]; try (eexists; reflexivity).
  destruct (monthly_payment_returns (pr * (1 - dp / 100)) rate term Hterm) as [pay ->].
  eexists; reflexivity.
Qed.

Lemma ai_flags_returns (p : PropertyData) (nums : Numbers) (included : list string) :
  exists flags, ai_flags p nums included = Ok flags.
Proof.
  unfold ai_flags.
  destruct (py_in "Rent & Price" included); [| eexists; reflexivity].
  destruct (monthly_rent p) as [rent|]; [| eexists; reflexivity].
  destruct (price p) as [pr|]; [| eexists; reflexivity].
  destruct (Qlt_bool 0 pr) eqn:Hpr; [| eexists; reflexivity].
  rewrite (guarded_div _ _ Hpr). cbn [bind].
  destruct (Qlt_bool 0.14 (rent * 12 / pr)); eexists; reflexivity.
Qed.

(** The result of a scoring run, once the two calls that can raise have
    returned. *)
Lemma run_score_ok (p : PropertyData) (included : list string) (rate_env : string)
    (nums : Numbers) (flags : list string) :
  compute_numbers p = Ok nums ->
  ai_flags p nums included = Ok flags ->
  exists base_score norm_w,
    normalized_score (metrics_of p nums included) (get_base_weights rate_env)
    = Ok (base_score, norm_w) /\
    run_score p included rate_env
    = Ok (mkScoreResult nums (metrics_of p nums included) base_score norm_w flags
            (ai_penalty flags) (kill_switch nums p included)
            (Qmax (base_score * (1 - ai_penalty flags)) 0)
            (confidence_from_coverage (metrics_of p nums included) included)
            (fst (grade (Qmax (base_score * (1 - ai_penalty flags)) 0)
                    (kill_switch nums p included)))
            (snd (grade (Qmax (base_score * (1 - ai_penalty flags)) 0)
                    (kill_switch nums p included)))).
Proof.
  intros Hnums Hflags. unfold run_score.
  rewrite Hnums. cbn [bind]. rewrite available_metrics_spec. cbn [bind].
  rewrite (normalized_score_spec _ _ (metrics_of_NoDup p nums included)). cbn [bind].
  rewrite Hflags. cbn [bind].
  do 2 eexists. split; [reflexivity|].
  destruct (grade _ _); reflexivity.
Qed.

Lemma run_score_returns (p : PropertyData) (included : list string) (rate_env : string) :
  opt_all (fun t => t <> 0%Z) (term_years p) ->
  exists r, run_score p included rate_env = Ok r.
Proof.
  intros Hterm.
  destruct (compute_numbers_returns p Hterm) as [nums Hnums].
  destruct (ai_flags_returns p nums included) as [flags Hflags].
  destruct (run_score_ok p included rate_env nums flags Hnums Hflags) as (b & w & _ & ->).
  eexists; reflexivity.
Qed.

Lemma bind_ok {A B : Type} (r : result A) (k : A -> result B) (b : B) :
  bind r k = Ok b -> exists a, r = Ok a /\ k a = Ok b.
Proof.
  destruct r as [a|e]; simpl; [| discriminate]. intros H. now exists a.
Qed.

(** In a scoring run the kill switch overrides the score. *)
Lemma run_score_killed (p : PropertyData) (included : list string) (rate_env : string)
    (r : ScoreResult) :
  run_score p included rate_env = Ok r ->
  res_killed r = true -> res_grade r = "F" /\ res_verdict r = "PASS".
Proof.
  unfold run_score. intros H.
  apply bind_ok in H. destruct H as (nums & _ & H).
  apply bind_ok in H. destruct H as (metrics & _ & H).
  apply bind_ok in H. destruct H as ([base_score norm_w] & _ & H).
  apply bind_ok in H. destruct H as (flags & _ & H).
  destruct (grade _ (kill_switch nums p included)) as [g verdict] eqn:E.
  injection H as <-. cbn [res_killed res_grade res_verdict].
  intros Hk. rewrite Hk in E. cbn [grade] in E. now injection E as <- <-.
Qed.





(** *** The cash-flow projection *)








(** *** Session state and the sensitivity grids *)







(** *** Removing one optional field *)






















Lemma same_presence_some {A B : Type} (a : A) (b : B) : same_presence (Some a) (Some b).
Proof.
  split; discriminate.
Qed.

Lemma same_presence_none {A B : Type} : same_presence (@None A) (@None B).
Proof.
  split; reflexivity.
Qed.

Create HintDb presence.
#[local] Hint Resolve same_presence_some same_presence_none : presence.








(** ** Further properties of the engine *)

(** *** Amortization *)







(** *** The metrics calculator: errors and invariants *)





(** X4.  In the bundle [compute_numbers] returns, a cap rate comes with an
    NOI, a monthly cash flow is there exactly when the NOI and the loan
    payment are, a cash-on-cash return comes with a cash flow and a stress
    DSCR with a loan payment; the cash flow is NOI/12 minus the payment and
    the cap rate times the price is the NOI. *)
Theorem compute_numbers_consistent (p : PropertyData) (nums : Numbers) :
  compute_numbers p = Ok nums ->
  (present (cap_rate nums) -> present (noi_year nums)) /\
  (present (cash_flow_month nums) <->
   present (noi_year nums) /\ present (loan_payment nums)) /\
  (present (coc_return nums) -> present (cash_flow_month nums)) /\
  (present (dscr_stress nums) -> present (loan_payment nums) /\ present (noi_year nums)) /\
  (forall cf noi pay,
     cash_flow_month nums = Some cf -> noi_year nums = Some noi ->
     loan_payment nums = Some pay -> cf == noi / 12 - pay) /\
  (forall cap noi pr,
     cap_rate nums = Some cap -> noi_year nums = Some noi -> price p = Some pr ->
     cap * pr == noi).
Proof.
  rewrite compute_numbers_spec.
  unfold numbers_of, loan_call, coc_of, cash_flow_of, dscr_of, cap_of, noi_of, present.
  destruct (monthly_rent p) as [rent|], (monthly_expenses p) as [expenses|],
    (price p) as [pr|], (down_payment_pct p) as [dp|], (interest_rate_pct p) as [rate|],
    (term_years p) as [term|];
    try destruct (monthly_payment _ _ _) as [pay|e]; try discriminate;
    try destruct (Qlt_bool 0 pr) eqn:Hpr;
    try destruct (Qlt_bool 0 (pr * (dp / 100)));
    intros [= <-]; cbn;
    (repeat split; try congruence; try tauto; try discriminate;
     try (intros; repeat match goal with H : Some _ = Some _ |- _ => injection H as <- end;
          try reflexivity)).
  all: try (apply Qlt_bool_iff in Hpr; field; lra).
  all: try (intros [H1 H2]; congruence).
Qed.

Lemma compute_numbers_consistent_witness :
  exists nums,
    compute_numbers cap_rate_example = Ok nums /\
    (present (cap_rate nums) -> present (noi_year nums)) /\
    (present (cash_flow_month nums) <->
     present (noi_year nums) /\ present (loan_payment nums)).
Proof.
  eexists. split; [reflexivity |].
  pose proof (compute_numbers_consistent cap_rate_example _ eq_refl) as H.
  exact (conj (proj1 H) (proj1 (proj2 H))).
Defined.

(** *** Price change *)

(** X5.  [compute_price_change] never raises.  It answers with both values
    when the price and a positive last sale price are given, and with none
    otherwise; the absolute change is the price minus the last sale price
    and the relative change times the last sale price is the absolute
    change. *)
Theorem compute_price_change_consistent (p : PropertyData) :
  returns (compute_price_change p)
    (fun r =>
       match price p, last_sale_price p with
       | Some pr, Some last =>
           if Qlt_bool 0 last
           then exists pct, r = (Some pct, Some (pr - last)) /\ pct * last == pr - last
           else r = (None, None)
       | _, _ => r = (None, None)
       end).
Proof.
  unfold compute_price_change.
  destruct (price p) as [pr|], (last_sale_price p) as [last|]; cbn [returns]; try reflexivity.
  unfold Qlt_bool. destruct (Qle_bool last 0) eqn:Hl; cbn [negb returns]; [reflexivity|].
  assert (Hpos : 0 < last).
  { apply Qnot_le_lt. intros H. apply Qle_bool_iff in H. congruence. }
  rewrite pydiv_ok by lra. cbn [bind returns].
  eexists. split; [reflexivity|]. field. lra.
Qed.

(** *** Flags, penalty and kill switch *)

(** [ai_flags] never raises; its list, check by check. *)
Lemma ai_flags_spec (p : PropertyData) (nums : Numbers) (included : list string) :
  ai_flags p nums included
  = Ok (flag_if (aggressive_rent p included) flag_aggressive
        ++ flag_if (optimistic_vacancy p included) flag_vacancy
        ++ flag_if (understated_expenses p included) flag_expenses
        ++ flag_if (low_cap_rate nums included) flag_low_cap
        ++ flag_if (regulatory_pressure p included) flag_regulatory).
Proof.
  unfold ai_flags, aggressive_rent, optimistic_vacancy, understated_expenses, low_cap_rate,
    regulatory_pressure, flag_if.
  destruct (py_in "Rent & Price" included), (py_in "Vacancy" included),
    (py_in "Expenses" included), (py_in "Yield" included), (py_in "Regulation" included);
    cbn [andb];
    repeat match goal with
    | |- context [match ?o with Some _ => _ | None => _ end] =>
        lazymatch o with
        | monthly_rent p => destruct o as [rent|]
        | price p => destruct o as [pr|]
        | vacancy_rate p => destruct o
        | monthly_expenses p => destruct o
        | cap_rate nums => destruct o
        end
    end;
    try (destruct (Qlt_bool 0 pr) eqn:Hpr; [rewrite ?(guarded_div _ _ Hpr)|]);
    cbn [bind andb];
    repeat match goal with
    | |- context [if ?c then _ else _] => destruct c
    end;
    reflexivity.
Qed.

(** X6.  [ai_flags] never raises and returns the five flag texts in their
    fixed order with some left out: at most five flags, none twice. *)
Theorem ai_flags_ordered (p : PropertyData) (nums : Numbers) (included : list string) :
  returns (ai_flags p nums included)
    (fun flags =>
       subseq flags flag_texts = true /\ NoDup flags /\ (List.length flags <= 5)%nat).
Proof.
  rewrite ai_flags_spec. cbn [returns].
  destruct (aggressive_rent p included), (optimistic_vacancy p included),
    (understated_expenses p included), (low_cap_rate nums included),
    (regulatory_pressure p included);
    (split; [reflexivity | split; [| cbn; lia]]);
    cbn [flag_if app];
    repeat (constructor; [cbn [In]; intuition discriminate |]); constructor.
Qed.

Lemma kill_switch_regulation (nums : Numbers) (p : PropertyData) (included : list string) :
  regulatory_pressure p included = true -> kill_switch nums p included = true.
Proof.
  unfold regulatory_pressure, kill_switch. intros ->.
  destruct (py_in "Financing" included && _); reflexivity.
Qed.

(** X7.  Whenever [ai_flags] raises the regulatory flag, [kill_switch]
    fires; and on a deal that is not killed the cap of [ai_penalty] does not
    bind: the penalty of its flags is the plain sum of their points, at most
    0.26. *)
Theorem regulatory_flag_kills (p : PropertyData) (nums : Numbers) (included : list string) :
  returns (ai_flags p nums included)
    (fun flags =>
       (In flag_regulatory flags -> kill_switch nums p included = true) /\
       (kill_switch nums p included = false ->
        ai_penalty flags == Qsum (map flag_points flags) /\ ai_penalty flags <= 0.26)).
Proof.
  rewrite ai_flags_spec. cbn [returns].
  destruct (regulatory_pressure p included) eqn:Hreg.
  - rewrite (kill_switch_regulation nums p included Hreg). split; [reflexivity | discriminate].
  - split.
    + destruct (aggressive_rent p included), (optimistic_vacancy p included),
        (understated_expenses p included), (low_cap_rate nums included);
        cbn [flag_if app In]; intuition discriminate.
    + intros _.
      destruct (aggressive_rent p included), (optimistic_vacancy p included),
        (understated_expenses p included), (low_cap_rate nums included);
        vm_compute; split; (reflexivity || discriminate).
Qed.

Lemma regulatory_flag_kills_witness :
  (In flag_regulatory [flag_regulatory] /\
   kill_switch no_numbers regulated_deal ["Regulation"] = true) /\
  (kill_switch no_numbers healthy_deal all_modules = false /\
   ai_penalty [] == Qsum (map flag_points []) /\ ai_penalty [] <= 0.26).
Proof.
  assert (Hin : In flag_regulatory [flag_regulatory]) by (left; reflexivity).
  split; [split; [exact Hin |] | split; [reflexivity |]].
  - exact (proj1 (regulatory_flag_kills regulated_deal no_numbers ["Regulation"]) Hin).
  - exact (proj2 (regulatory_flag_kills healthy_deal no_numbers all_modules) eq_refl).
Defined.

(** X8.  [kill_switch] looks at three modules only: it never fires when
    none of Financing, Regulation and Liquidity is included, and including
    more modules never switches it off. *)
Theorem kill_switch_modules (nums : Numbers) (p : PropertyData) (included included' : list string) :
  (py_in "Financing" included = false -> py_in "Regulation" included = false ->
   py_in "Liquidity" included = false -> kill_switch nums p included = false) /\
  ((forall m, py_in m included = true -> py_in m included' = true) ->
   kill_switch nums p included = true -> kill_switch nums p included' = true).
Proof.
  unfold kill_switch. split.
  - intros -> -> ->. reflexivity.
  - intros Hsub.
    pose proof (Hsub "Financing") as HF.
    pose proof (Hsub "Regulation") as HR.
    pose proof (Hsub "Liquidity") as HL.
    destruct (py_in "Financing" included), (py_in "Regulation" included),
      (py_in "Liquidity" included);
      try rewrite (HF eq_refl); try rewrite (HR eq_refl); try rewrite (HL eq_refl);
      cbn [andb];
      repeat match goal with
      | |- context [if ?c then _ else _] => destruct c
      end; auto.
Qed.

Lemma kill_switch_modules_witness :
  ((py_in "Financing" ["Yield"] = false /\ py_in "Regulation" ["Yield"] = false /\
    py_in "Liquidity" ["Yield"] = false) /\
   kill_switch no_numbers regulated_deal ["Yield"] = false) /\
  ((forall m, py_in m ["Regulation"] = true -> py_in m all_modules = true) /\
   kill_switch no_numbers regulated_deal ["Regulation"] = true /\
   kill_switch no_numbers regulated_deal all_modules = true).
Proof.
  assert (Hsub : forall m, py_in m ["Regulation"] = true -> py_in m all_modules = true).
  { intros m Hm. cbn [py_in existsb] in Hm. rewrite orb_false_r in Hm.
    apply String.eqb_eq in Hm. subst m. reflexivity. }
  split; [split; [repeat split |] | split; [exact Hsub | split; [reflexivity |]]].
  - exact (proj1 (kill_switch_modules no_numbers regulated_deal ["Yield"] [])
             eq_refl eq_refl eq_refl).
  - exact (proj2 (kill_switch_modules no_numbers regulated_deal ["Regulation"] all_modules)
             Hsub eq_refl).
Defined.

(** *** Grade and confidence *)

(** X9.  [grade] pairs each letter with one verdict (PASS goes with F and
    with F only), and without the kill switch a higher score never gets a
    worse letter. *)
Theorem grade_monotone (score score' : Q) (killed : bool) :
  In (grade score killed)
    [("A", "STRONG BUY"); ("B", "BUY"); ("C", "WATCH"); ("D", "SPECULATIVE"); ("F", "PASS")] /\
  (snd (grade score killed) = "PASS" <-> fst (grade score killed) = "F") /\
  (score <= score' ->
   (grade_rank (fst (grade score false)) <= grade_rank (fst (grade score' false)))%nat).
Proof.
  split; [| split].
  - unfold grade. destruct killed; [cbn; tauto|].
    repeat match goal with |- context [if ?c then _ else _] => destruct c end; cbn; tauto.
  - unfold grade. destruct killed; [cbn; tauto|].
    repeat match goal with |- context [if ?c then _ else _] => destruct c end;
      cbn; split; (reflexivity || discriminate).
  - intros Hle. unfold grade.
    destruct (Qle_bool 90 score) eqn:H90, (Qle_bool 80 score) eqn:H80,
      (Qle_bool 70 score) eqn:H70, (Qle_bool 60 score) eqn:H60;
      destruct (Qle_bool 90 score') eqn:H90', (Qle_bool 80 score') eqn:H80',
        (Qle_bool 70 score') eqn:H70', (Qle_bool 60 score') eqn:H60';
      cbn; try lia; exfalso;
      repeat match goal with
      | H : Qle_bool _ _ = true |- _ => apply Qle_bool_iff in H
      | H : Qle_bool _ _ = false |- _ =>
          apply not_true_iff_false in H; rewrite Qle_bool_iff in H
      end; lra.
Qed.

Lemma grade_monotone_witness :
  85 <= 92 /\ (grade_rank (fst (grade 85 false)) <= grade_rank (fst (grade 92 false)))%nat.
Proof.
  assert (H : 85 <= 92) by discriminate.
  split; [exact H |].
  exact (proj2 (proj2 (grade_monotone 85 92 false)) H).
Defined.

Lemma bonus_monotone (b b' : bool) (x x' c : Q) :
  (b = true -> b' = true) -> x <= x' -> 0 <= c ->
  (if b then x + c else x) <= (if b' then x' + c else x').
Proof.
  intros Hb Hx Hc. destruct b, b'; try discriminate (Hb eq_refl); lra.
Qed.

(** X10.  [confidence_from_coverage] always lies between 0.35 and 0.95,
    and it never goes down when more metrics are present and at least as
    many modules are included. *)
Theorem confidence_monotone (metrics metrics' : dict Q) (included included' : list string) :
  0.35 <= confidence_from_coverage metrics included <= 0.95 /\
  ((forall k, py_in k (dict_keys metrics) = true -> py_in k (dict_keys metrics') = true) ->
   (List.length included <= List.length included')%nat ->
   confidence_from_coverage metrics included <= confidence_from_coverage metrics' included').
Proof.
  unfold confidence_from_coverage. split.
  - match goal with
    | |- _ <= Qmax _ (Qmin ?b _) <= _ =>
        destruct (Q.min_spec b 0.95) as [[? H1] | [? H1]];
        destruct (Q.max_spec 0.35 (Qmin b 0.95)) as [[? H2] | [? H2]]; lra
    end.
  - intros Hsub Hlen.
    assert (Hbase :
      0.35 + 0.10 * Qmin (inject_Z (Z.of_nat (List.length included)) / 7) 1
      <= 0.35 + 0.10 * Qmin (inject_Z (Z.of_nat (List.length included')) / 7) 1).
    { assert (Hz : (Z.of_nat (List.length included) <= Z.of_nat (List.length included'))%Z)
        by lia.
      rewrite Zle_Qle in Hz.
      set (a := inject_Z (Z.of_nat (List.length included))) in *.
      set (a' := inject_Z (Z.of_nat (List.length included'))) in *.
      assert (Ha : a / 7 == a * (1 # 7)) by reflexivity.
      assert (Ha' : a' / 7 == a' * (1 # 7)) by reflexivity.
      destruct (Q.min_spec (a / 7) 1) as [[? H1] | [? H1]];
      destruct (Q.min_spec (a' / 7) 1) as [[? H2] | [? H2]]; lra. }
    pose proof (bonus_monotone _ _ _ _ 0.18 (Hsub "cashflow") Hbase) as H1.
    specialize (H1 ltac:(discriminate)).
    pose proof (bonus_monotone _ _ _ _ 0.14 (Hsub "yield") H1) as H2.
    specialize (H2 ltac:(discriminate)).
    pose proof (bonus_monotone _ _ _ _ 0.10 (Hsub "downside") H2) as H3.
    specialize (H3 ltac:(discriminate)).
    pose proof (bonus_monotone _ _ _ _ 0.05 (Hsub "liquidity") H3) as H4.
    specialize (H4 ltac:(discriminate)).
    pose proof (bonus_monotone _ _ _ _ 0.05 (Hsub "location") H4) as H5.
    specialize (H5 ltac:(discriminate)).
    match type of H5 with
    | ?b <= ?b' =>
        destruct (Q.min_spec b 0.95) as [[? E1] | [? E1]];
        destruct (Q.min_spec b' 0.95) as [[? E2] | [? E2]];
        destruct (Q.max_spec 0.35 (Qmin b 0.95)) as [[? E3] | [? E3]];
        destruct (Q.max_spec 0.35 (Qmin b' 0.95)) as [[? E4] | [? E4]]; lra
    end.
Qed.

Lemma confidence_monotone_witness :
  ((forall k, py_in k (dict_keys [("yield", 0.5)]) = true ->
      py_in k (dict_keys two_metrics) = true) /\
   (List.length ["Yield"] <= List.length all_modules)%nat) /\
  confidence_from_coverage [("yield", 0.5)] ["Yield"]
  <= confidence_from_coverage two_metrics all_modules.
Proof.
  assert (Hsub : forall k, py_in k (dict_keys [("yield", 0.5)]) = true ->
                   py_in k (dict_keys two_metrics) = true).
  { intros k Hk. cbn [dict_keys map fst py_in existsb] in Hk. rewrite orb_false_r in Hk.
    apply String.eqb_eq in Hk. subst k. reflexivity. }
  assert (Hlen : (List.length ["Yield"] <= List.length all_modules)%nat) by (cbn; lia).
  split; [split; [exact Hsub | exact Hlen] |].
  exact (proj2 (confidence_monotone [("yield", 0.5)] two_metrics ["Yield"] all_modules)
           Hsub Hlen).
Defined.

(** *** More on weight renormalization *)

Lemma Qsum_permutation (xs ys : list Q) : Permutation xs ys -> Qsum xs == Qsum ys.
Proof.
  induction 1; simpl; try lra.
Qed.

Lemma base_weights_total (rate_env : string) :
  Qsum (map (weight_of (get_base_weights rate_env)) metric_names) == 1.
Proof.
  unfold get_base_weights. destruct (String.eqb (upper rate_env) "HIGH"); reflexivity.
Qed.

(** X11.  When all seven metrics are present, renormalization changes
    nothing: each normalized weight of [normalized_score] equals the base
    weight of its metric, under the weights of every rate environment. *)
Theorem full_coverage_keeps_weights (metrics : dict Q) (rate_env : string) :
  NoDup (dict_keys metrics) ->
  incl (dict_keys metrics) metric_names ->
  incl metric_names (dict_keys metrics) ->
  returns (normalized_score metrics (get_base_weights rate_env))
    (fun r =>
       forall k, In k metric_names ->
         holds (dict_get (snd r) k) (weight_of (get_base_weights rate_env) k)).
Proof.
  intros Hnd Hin Hout.
  rewrite normalized_score_spec by exact Hnd. cbn [returns snd].
  set (weights := get_base_weights rate_env).
  assert (Hperm : Permutation (dict_keys metrics) metric_names).
  { apply NoDup_Permutation; [exact Hnd | |].
    - repeat (constructor; [cbn [In]; intuition discriminate |]); constructor.
    - intros k. split; [apply Hin | apply Hout]. }
  assert (Hden : denominator metrics weights == 1).
  { unfold denominator, py_or.
    assert (Hs : py_sum (map (weight_of weights) (dict_keys metrics)) == 1).
    { rewrite py_sum_Qsum.
      rewrite (Qsum_permutation _ _ (Permutation_map (weight_of weights) Hperm)).
      apply base_weights_total. }
    destruct (Qeq_bool _ 0); [reflexivity | exact Hs]. }
  intros k Hk.
  rewrite (dict_get_tabulate (fun k => weight_of weights k / denominator metrics weights)
             _ _ (Hout k Hk)).
  cbn [holds]. rewrite Hden. field.
Qed.

Lemma full_coverage_keeps_weights_witness :
  (NoDup (dict_keys seven_metrics) /\ incl (dict_keys seven_metrics) metric_names /\
   incl metric_names (dict_keys seven_metrics)) /\
  returns (normalized_score seven_metrics (get_base_weights "NORMAL"))
    (fun r =>
       forall k, In k metric_names ->
         holds (dict_get (snd r) k) (weight_of (get_base_weights "NORMAL") k)).
Proof.
  assert (H1 : NoDup (dict_keys seven_metrics)).
  { repeat (constructor; [cbn [In]; intuition discriminate |]); constructor. }
  assert (H2 : incl (dict_keys seven_metrics) metric_names).
  { intros k Hk. cbn in Hk. cbn. tauto. }
  assert (H3 : incl metric_names (dict_keys seven_metrics)).
  { intros k Hk. cbn in Hk. cbn. tauto. }
  split; [repeat split; assumption |].
  exact (full_coverage_keeps_weights seven_metrics "NORMAL" H1 H2 H3).
Defined.



Lemma Qsum_all_zero {A : Type} (f : A -> Q) (xs : list A) :
  (forall x, In x xs -> f x == 0) -> Qsum (map f xs) == 0.
Proof.
  induction xs as [|x xs IH]; intros Hf; simpl; [reflexivity|].
  rewrite (Hf x) by (now left). rewrite IH by (intros y Hy; apply Hf; now right). lra.
Qed.

(** X13.  Metrics that the weight map does not know count for nothing: when
    every key of the metrics map has weight zero (an empty map included),
    [normalized_score] divides by 1 instead of by the zero sum, and returns
    the score 0 with all normalized weights 0. *)
Theorem unknown_metrics_score_0 (metrics weights : dict Q) :
  NoDup (dict_keys metrics) ->
  (forall k, In k (dict_keys metrics) -> weight_of weights k == 0) ->
  returns (normalized_score metrics weights)
    (fun r =>
       fst r == 0 /\ dict_keys (snd r) = dict_keys metrics /\
       forall k w, In (k, w) (snd r) -> w == 0).
Proof.
  intros Hnd Hw. rewrite normalized_score_spec by exact Hnd. cbn [returns fst snd].
  split; [| split].
  - rewrite py_sum_Qsum.
    assert (Hz : Qsum (map (fun k => dict_get_default metrics k 0
                                     * (weight_of weights k / denominator metrics weights))
                         (dict_keys metrics)) == 0).
    { apply Qsum_all_zero. intros k Hk. rewrite (Hw k Hk). unfold Qdiv. ring. }
    rewrite Hz. reflexivity.
  - apply dict_keys_tabulate.
  - intros k w Hin. apply in_map_iff in Hin. destruct Hin as (k' & [= <- <-] & Hk').
    rewrite (Hw k') by exact Hk'. unfold Qdiv. ring.
Qed.

Lemma unknown_metrics_score_0_witness :
  (NoDup (dict_keys [("walkability", 0.9)]) /\
   forall k, In k (dict_keys [("walkability", 0.9)]) -> weight_of weights_high k == 0) /\
  returns (normalized_score [("walkability", 0.9)] weights_high)
    (fun r =>
       fst r == 0 /\ dict_keys (snd r) = dict_keys [("walkability", 0.9)] /\
       forall k w, In (k, w) (snd r) -> w == 0).
Proof.
  assert (H1 : NoDup (dict_keys [("walkability", 0.9)])).
  { repeat (constructor; [cbn [In]; intuition discriminate |]); constructor. }
  assert (H2 : forall k, In k (dict_keys [("walkability", 0.9)]) ->
                 weight_of weights_high k == 0).
  { intros k [<- | []]. reflexivity. }
  split; [split; assumption |].
  exact (unknown_metrics_score_0 [("walkability", 0.9)] weights_high H1 H2).
Defined.

(** *** Discounting *)






(** *** The projected years *)













(** *** Narrative *)

Lemma firstn_short {A : Type} (n : nat) (xs : list A) :
  (List.length xs <= n)%nat -> firstn n xs = xs.
Proof.
  revert n. induction xs as [|x xs IH]; intros n Hlen; [now destruct n|].
  destruct n as [|n]; [simpl in Hlen; lia|]. simpl. f_equal. apply IH. simpl in Hlen. lia.
Qed.

(** X19.  [narrative] always gives at least one strength and one risk, at
    most four strengths and five risks.  The risks are the first five flags
    passed, or the standing sentence when no flag is passed; the neutral
    strength sentence appears only alone.  On the flags of [ai_flags] the
    risks are those flags, none cut. *)
Theorem narrative_lists (p : PropertyData) (nums : Numbers) (flags included : list string) :
  (let strengths := fst (narrative p nums flags included) in
   strengths <> [] /\ (List.length strengths <= 4)%nat /\ NoDup strengths /\
   (In strength_neutral strengths -> strengths = [strength_neutral])) /\
  snd (narrative p nums flags included)
  = match flags with
    | [] => [risk_none]
    | _ => firstn 5 flags
    end /\
  returns (ai_flags p nums included)
    (fun raised =>
       snd (narrative p nums raised included)
       = match raised with
         | [] => [risk_none]
         | _ => raised
         end).
Proof.
  assert (Hrisks : forall fl, snd (narrative p nums fl included)
                              = match fl with [] => [risk_none] | _ => firstn 5 fl end).
  { intros fl. unfold narrative. cbn [snd]. destruct fl; reflexivity. }
  split; [| split; [apply Hrisks |]].
  - unfold narrative. cbn [fst].
    destruct (py_in "Financing" included && _), (py_in "Yield" included && _),
      (py_in "Downside" included && _), (py_in "Liquidity" included && _); cbn;
    (split; [discriminate | split; [lia | split;
       [repeat (constructor; [cbn [In]; intuition discriminate |]); constructor
       | intros Hin; try reflexivity; cbn [In] in Hin; intuition discriminate]]]).
  - rewrite ai_flags_spec. cbn [returns]. rewrite Hrisks.
    destruct (aggressive_rent p included), (optimistic_vacancy p included),
      (understated_expenses p included), (low_cap_rate nums included),
      (regulatory_pressure p included); reflexivity.
Qed.

Lemma narrative_lists_witness :
  In strength_neutral (fst (narrative all_cash_deal no_numbers [] [])) /\
  fst (narrative all_cash_deal no_numbers [] []) = [strength_neutral].
Proof.
  assert (Hin : In strength_neutral (fst (narrative all_cash_deal no_numbers [] [])))
    by (left; reflexivity).
  split; [exact Hin |].
  exact (proj2 (proj2 (proj2 (proj1 (narrative_lists all_cash_deal no_numbers [] [])))) Hin).
Defined.

(** *** The credit ledger *)

Lemma update_where_email_get (db : users_table) (email e : string) (f : user_row -> user_row) :
  dict_get (update_where_email db email f) e
  = if String.eqb email e then option_map f (dict_get db e) else dict_get db e.
Proof.
  induction db as [|[k row] db IH]; simpl.
  - now destruct (String.eqb email e).
  - destruct (String.eqb k email) eqn:Ek; simpl.
    + apply String.eqb_eq in Ek. subst k.
      destruct (String.eqb email e); reflexivity.
    + rewrite IH. destruct (String.eqb k e) eqn:Ee; [| reflexivity].
      apply String.eqb_eq in Ee. subst k.
      rewrite String.eqb_sym in Ek. now rewrite Ek.
Qed.

Lemma update_where_email_keys (db : users_table) (email : string) (f : user_row -> user_row) :
  dict_keys (update_where_email db email f) = dict_keys db.
Proof.
  induction db as [|[k row] db IH]; simpl; [reflexivity|].
  destruct (String.eqb k email); simpl; [reflexivity | now rewrite IH].
Qed.


Lemma update_where_email_credits (db : users_table) (email : string)
    (f : user_row -> user_row) :
  Forall (fun kv => (0 <= credits (snd kv))%Z) db ->
  (forall row, dict_get db email = Some row -> (0 <= credits (f row))%Z) ->
  Forall (fun kv => (0 <= credits (snd kv))%Z) (update_where_email db email f).
Proof.
  induction 1 as [|[k row] db Hrow Hdb IH]; simpl; intros Hf; [constructor|].
  simpl in Hf. destruct (String.eqb k email).
  - constructor; [apply Hf; reflexivity | exact Hdb].
  - constructor; [exact Hrow | apply IH, Hf].
Qed.

Lemma dict_get_snoc {V : Type} (d : dict V) (k e : string) (v : V) :
  dict_get (d ++ [(k, v)]) e
  = match dict_get d e with
    | Some x => Some x
    | None => if String.eqb k e then Some v else None
    end.
Proof.
  induction d as [|[k' v'] d IH]; simpl; [reflexivity|].
  destruct (String.eqb k' e); [reflexivity | exact IH].
Qed.

Lemma dict_get_absent {V : Type} (d : dict V) (k : string) :
  dict_get d k = None -> ~ In k (dict_keys d).
Proof.
  intros Hget Hin. destruct (dict_get_key d k Hin) as [v Hv]. congruence.
Qed.



Lemma spend_credit_ledger (db : users_table) (now : Z) (email : string) (amount : Z) :
  ledger_ok db -> ledger_ok (fst (spend_credit db now email amount)).
Proof.
  intros [Hc Hk]. unfold spend_credit.
  destruct (dict_get db email) as [row|] eqn:Hrow; [| now split].
  destruct (negb (paid row =? 0)%Z); [now split|].
  destruct (credits row <? amount)%Z eqn:Hlt; [now split|].
  apply Z.ltb_ge in Hlt. cbn [fst]. split.
  - apply update_where_email_credits; [exact Hc|].
    intros r Hr. rewrite Hrow in Hr. injection Hr as <-. cbn. lia.
  - now rewrite update_where_email_keys.
Qed.

Lemma get_user_ledger (db : users_table) (now : Z) (email : string) :
  ledger_ok db -> ledger_ok (fst (get_user db now email)).
Proof.
  intros [Hc Hk]. unfold get_user.
  destruct (dict_get db email) as [row|] eqn:Hrow; [now split|].
  cbn [fst]. split.
  - apply Forall_app. split; [exact Hc|]. constructor; [cbn; unfold FREE_CREDITS; lia | constructor].
  - rewrite dict_keys_app. cbn. apply NoDup_app; [exact Hk | | ].
    + repeat constructor. intros [].
    + intros k Hin [Hk' | []]. subst k. now apply (dict_get_absent db email Hrow).
Qed.

Lemma set_paid_ledger (db : users_table) (now : Z) (email : string) (paid_flag : Z) :
  ledger_ok db -> ledger_ok (set_paid db now email paid_flag).
Proof.
  intros [Hc Hk]. unfold set_paid. split.
  - apply update_where_email_credits; [exact Hc|].
    intros r _. cbn. destruct (paid_flag =? 0)%Z; unfold FREE_CREDITS, PRO_CREDITS; lia.
  - now rewrite update_where_email_keys.
Qed.

(** X21.  The three operations on the [users] table keep the ledger sound:
    from a table with one row per email and no negative balance, [get_user],
    [set_paid] and [spend_credit] (whatever their arguments) lead to such a
    table again. *)
Theorem ledger_stays_sound (db : users_table) (now : Z) (email : string)
    (paid_flag amount : Z) :
  ledger_ok db ->
  ledger_ok (fst (get_user db now email)) /\
  ledger_ok (set_paid db now email paid_flag) /\
  ledger_ok (fst (spend_credit db now email amount)).
Proof.
  intros Hok. split; [| split].
  - now apply get_user_ledger.
  - now apply set_paid_ledger.
  - now apply spend_credit_ledger.
Qed.

Lemma two_users_ok : ledger_ok two_users.
Proof.
  split.
  - repeat constructor; cbn; lia.
  - repeat (constructor; [cbn [In]; intuition discriminate |]); constructor.
Defined.

Lemma ledger_stays_sound_witness :
  ledger_ok two_users /\
  ledger_ok (fst (get_user two_users 200 "ann@example.com")) /\
  ledger_ok (set_paid two_users 200 "ann@example.com" 1) /\
  ledger_ok (fst (spend_credit two_users 200 "ann@example.com" 5)).
Proof.
  split; [exact two_users_ok |].
  exact (ledger_stays_sound two_users 200 "ann@example.com" 1 5 two_users_ok).
Defined.

(** X22.  [get_user] creates an unknown user with [FREE_CREDITS] credits
    and no paid plan, and reports exactly the stored row of a known one
    without changing the table.  Asking again, at any later time, changes
    nothing more and gives the same answer; other users' rows are never
    touched. *)
Theorem get_user_creates_once (db : users_table) (now later : Z) (email : string) :
  (dict_get db email = None ->
   snd (get_user db now email) = mkUserInfo email FREE_CREDITS 0 /\
   fst (get_user db now email) = db ++ [(email, mkUserRow FREE_CREDITS 0 now now)]) /\
  (forall row, dict_get db email = Some row ->
   get_user db now email = (db, mkUserInfo email (credits row) (paid row))) /\
  get_user (fst (get_user db now email)) later email = get_user db now email /\
  (forall other, other <> email ->
   dict_get (fst (get_user db now email)) other = dict_get db other).
Proof.
  unfold get_user.
  destruct (dict_get db email) as [row|] eqn:Hrow; cbn [fst snd].
  - split; [discriminate | split; [| split]].
    + now intros r [= <-].
    + now rewrite Hrow.
    + reflexivity.
  - split; [now split | split; [discriminate | split]].
    + rewrite dict_get_snoc, Hrow, String.eqb_refl. reflexivity.
    + intros other Hne. rewrite dict_get_snoc.
      destruct (dict_get db other); [reflexivity|].
      destruct (String.eqb email other) eqn:E; [| reflexivity].
      apply String.eqb_eq in E. congruence.
Qed.

Lemma get_user_creates_once_witness :
  (dict_get two_users "zoe@example.com" = None /\
   snd (get_user two_users 200 "zoe@example.com") = mkUserInfo "zoe@example.com" FREE_CREDITS 0) /\
  (dict_get two_users "ann@example.com" = Some (mkUserRow 2 0 100 100) /\
   get_user two_users 200 "ann@example.com"
   = (two_users, mkUserInfo "ann@example.com" 2 0)) /\
  ("ann@example.com" <> "zoe@example.com" /\
   dict_get (fst (get_user two_users 200 "zoe@example.com")) "ann@example.com"
   = dict_get two_users "ann@example.com").
Proof.
  assert (Hne : "ann@example.com" <> "zoe@example.com") by discriminate.
  split; [split; [reflexivity |] | split; [split; [reflexivity |] | split; [exact Hne |]]].
  - exact (proj1 (proj1 (get_user_creates_once two_users 200 300 "zoe@example.com") eq_refl)).
  - exact (proj1 (proj2 (get_user_creates_once two_users 200 300 "ann@example.com")) _ eq_refl).
  - exact (proj2 (proj2 (proj2 (get_user_creates_once two_users 200 300 "zoe@example.com")))
             _ Hne).
Defined.

Lemma spend_credit_short (db : users_table) (now : Z) (email : string) (amount : Z)
    (row : user_row) :
  dict_get db email = Some row -> paid row = 0%Z -> (credits row < amount)%Z ->
  spend_credit db now email amount = (db, false).
Proof.
  intros Hrow Hp Hc. unfold spend_credit. rewrite Hrow, Hp. cbn [Z.eqb negb].
  apply Z.ltb_lt in Hc. now rewrite Hc.
Qed.

Lemma spend_credit_charge (db : users_table) (now : Z) (email : string) (amount : Z)
    (row : user_row) :
  dict_get db email = Some row -> paid row = 0%Z -> (amount <= credits row)%Z ->
  snd (spend_credit db now email amount) = true /\
  exists row', dict_get (fst (spend_credit db now email amount)) email = Some row' /\
               credits row' = (credits row - amount)%Z /\ paid row' = 0%Z.
Proof.
  intros Hrow Hp Hc. unfold spend_credit. rewrite Hrow, Hp. cbn [Z.eqb negb].
  apply Z.ltb_ge in Hc. rewrite Hc. cbn [fst snd]. split; [reflexivity|].
  rewrite update_where_email_get, String.eqb_refl, Hrow.
  eexists. split; [reflexivity | split; [reflexivity | exact Hp]].
Qed.

Lemma spend_times_unpaid (n : nat) :
  forall (db : users_table) (now : Z) (email : string) (amount : Z) (row : user_row),
  dict_get db email = Some row -> paid row = 0%Z ->
  (0 <= credits row)%Z -> (0 < amount)%Z ->
  snd (spend_times db now email amount n) = Nat.min n (Z.to_nat (credits row / amount)) /\
  exists row', dict_get (fst (spend_times db now email amount n)) email = Some row' /\
    paid row' = 0%Z /\
    credits row'
    = (credits row - amount * Z.of_nat (Nat.min n (Z.to_nat (credits row / amount))))%Z.
Proof.
  induction n as [|n IH]; intros db now email amount row Hrow Hp Hc Ha.
  - cbn. split; [reflexivity|]. exists row. split; [exact Hrow | split; [exact Hp | lia]].
  - cbn [spend_times].
    destruct (Z_lt_le_dec (credits row) amount) as [Hlt | Hge].
    + rewrite (spend_credit_short db now email amount row Hrow Hp Hlt).
      destruct (IH db now email amount row Hrow Hp Hc Ha) as [Hs Hr].
      destruct (spend_times db now email amount n) as [db'' allowed].
      cbn [fst snd] in *.
      assert (Hq : (credits row / amount = 0)%Z) by (apply Z.div_small; lia).
      rewrite Hq in *. cbn [Z.to_nat] in *. rewrite Nat.min_0_r in *.
      split; [exact Hs | exact Hr].
    + destruct (spend_credit_charge db now email amount row Hrow Hp Hge)
        as [Hok (row' & Hrow' & Hc' & Hp')].
      destruct (spend_credit db now email amount) as [db' ok]. cbn [fst snd] in *. subst ok.
      assert (Hc0 : (0 <= credits row')%Z) by lia.
      destruct (IH db' now email amount row' Hrow' Hp' Hc0 Ha) as [Hs Hr].
      destruct (spend_times db' now email amount n) as [db'' allowed].
      cbn [fst snd] in *.
      assert (Hq : (credits row' / amount = credits row / amount - 1)%Z).
      { rewrite Hc'. replace (credits row - amount)%Z with (credits row + (-1) * amount)%Z by lia.
        rewrite Z.div_add by lia. lia. }
      assert (Hq1 : (1 <= credits row / amount)%Z).
      { apply Z.div_le_lower_bound; lia. }
      assert (Hmin : S (Nat.min n (Z.to_nat (credits row' / amount)))
                     = Nat.min (S n) (Z.to_nat (credits row / amount))).
      { rewrite Hq. lia. }
      split; [now rewrite Hs |].
      destruct Hr as (r & Hr1 & Hr2 & Hr3). exists r.
      split; [exact Hr1 | split; [exact Hr2 |]].
      rewrite Hr3, <- Hmin, Nat2Z.inj_succ, Z.mul_succ_r. lia.
Qed.

(** X23.  An unpaid user with [c] credits who asks for [n] analyses in a
    row at a positive cost [amount] gets exactly [min n (c / amount)] of
    them, and is left with [c] minus what was charged: the balance is never
    overdrawn and no credit below [amount] is lost. *)
Theorem spend_times_allows (db : users_table) (now : Z) (email : string) (amount : Z)
    (n : nat) (row : user_row) :
  dict_get db email = Some row -> paid row = 0%Z ->
  (0 <= credits row)%Z -> (0 < amount)%Z ->
  snd (spend_times db now email amount n) = Nat.min n (Z.to_nat (credits row / amount)) /\
  exists row', dict_get (fst (spend_times db now email amount n)) email = Some row' /\
    paid row' = 0%Z /\
    credits row'
    = (credits row - amount * Z.of_nat (Nat.min n (Z.to_nat (credits row / amount))))%Z.
Proof.
  intros Hrow Hp Hc Ha. now apply spend_times_unpaid.
Qed.

Lemma spend_times_allows_witness :
  (dict_get two_users "ann@example.com" = Some (mkUserRow 2 0 100 100) /\
   paid (mkUserRow 2 0 100 100) = 0%Z /\
   (0 <= credits (mkUserRow 2 0 100 100))%Z /\ (0 < CREDIT_COST_PER_ANALYSIS)%Z) /\
  snd (spend_times two_users 200 "ann@example.com" CREDIT_COST_PER_ANALYSIS 5) = 2%nat.
Proof.
  assert (Hc : (0 <= credits (mkUserRow 2 0 100 100))%Z) by (cbn; lia).
  assert (Ha : (0 < CREDIT_COST_PER_ANALYSIS)%Z) by (unfold CREDIT_COST_PER_ANALYSIS; lia).
  split; [split; [reflexivity | split; [reflexivity | split; [exact Hc | exact Ha]]] |].
  exact (proj1 (spend_times_allows two_users 200 "ann@example.com" CREDIT_COST_PER_ANALYSIS 5
                  (mkUserRow 2 0 100 100) eq_refl eq_refl Hc Ha)).
Defined.



(** *** The sensitivity grid *)

















(** *** Provider payloads *)

Lemma safe_get_null (path : list string) : _safe_get JNull path = JNull.
Proof.
  destruct path; reflexivity.
Qed.

(** X25.  Walking a path with [_safe_get] is walking its first part and
    then the rest from where that led; the empty path gives the payload
    back.  So once a prefix of the path leads to nothing (a missing key, a
    value that is not a dict, or a stored null) the whole walk gives
    [None], whatever follows. *)
Theorem safe_get_app (d : json) (path rest : list string) :
  _safe_get d (path ++ rest) = _safe_get (_safe_get d path) rest /\
  _safe_get d [] = d /\
  (_safe_get d path = JNull -> _safe_get d (path ++ rest) = JNull).
Proof.
  assert (Happ : forall p d0, _safe_get d0 (p ++ rest) = _safe_get (_safe_get d0 p) rest).
  { induction p as [|k p IH]; intros d0; [reflexivity |].
    cbn [app _safe_get].
    destruct d0 as [| | | | |fields]; try (symmetry; apply safe_get_null).
    destruct (dict_get fields k); [apply IH | symmetry; apply safe_get_null]. }
  split; [apply Happ | split; [reflexivity |]].
  intros Hnull. now rewrite Happ, Hnull, safe_get_null.
Qed.

Lemma safe_get_app_witness :
  _safe_get estated_payload ["property"; "sale"] = JNull /\
  _safe_get estated_payload (["property"; "sale"] ++ ["amount"]) = JNull.
Proof.
  split; [reflexivity |].
  exact (proj2 (proj2 (safe_get_app estated_payload ["property"; "sale"] ["amount"])) eq_refl).
Defined.
